(** * themecn: the theme store (lib/store.ts) and its palette derivation rules

    A shallow embedding of the zustand theme store of jordanliu/themecn:
    [generateChartColors], [deriveDarkModeColors], [updateThemeColor],
    [setCurrentTheme], [getHexColor], [encodeThemeState] and [compactHSL],
    together with the fragment of JavaScript they rely on (string splitting,
    [parseInt] / [parseFloat], template literals, [Math.max] / [Math.min]).

    Palette values stay what they are in the source: strings of the form
    ["H S% L%"], taken apart with [split(" ")] and put together again with
    template literals. *)

From Stdlib Require Import ZArith QArith String Ascii List Bool Lia.
From Stdlib Require Import Decimal DecimalString DecimalN DecimalPos.
Import ListNotations.

Open Scope string_scope.
Open Scope Z_scope.

(* ================================================================== *)
(** ** The JavaScript fragment *)
(* ================================================================== *)

Module JS.

(** Numbers as the store computes with them.  Every number the engine prints
    into a palette is an integer: [hexToHSL] rounds its three components and
    the derivation rules only add, subtract, clamp and take a remainder.
    [Num z] is the double holding the integer [z] (exact below 2^53, far above
    any hue or percentage), [NaN] is what a failed parse yields, [Undefined]
    is what destructuring a too short array binds. *)
Inductive value : Type :=
| Num (z : Z)
| NaN
| Undefined.

Definition value_eqb (a b : value) : bool :=
  match a, b with
  | Num x, Num y => x =? y
  | NaN, NaN => true
  | Undefined, Undefined => true
  | _, _ => false
  end.

(** [a + b], [a - b], [a % b] on numbers; [undefined] converts to [NaN]. *)
Definition add (a b : value) : value :=
  match a, b with
  | Num x, Num y => Num (x + y)
  | _, _ => NaN
  end.

Definition sub (a b : value) : value :=
  match a, b with
  | Num x, Num y => Num (x - y)
  | _, _ => NaN
  end.

(** The remainder keeps the sign of the dividend, as [Z.rem] does. *)
Definition rem (a b : value) : value :=
  match a, b with
  | Num x, Num y => if y =? 0 then NaN else Num (Z.rem x y)
  | _, _ => NaN
  end.

Definition Math_max (a b : value) : value :=
  match a, b with
  | Num x, Num y => Num (Z.max x y)
  | _, _ => NaN
  end.

Definition Math_min (a b : value) : value :=
  match a, b with
  | Num x, Num y => Num (Z.min x y)
  | _, _ => NaN
  end.

(** [a < b]: false as soon as one side is [NaN]. *)
Definition lt (a b : value) : bool :=
  match a, b with
  | Num x, Num y => x <? y
  | _, _ => false
  end.

(** Decimal numerals. *)
Definition showN (n : N) : string := NilEmpty.string_of_uint (N.to_uint n).

Definition showZ (z : Z) : string :=
  if z <? 0 then String "-" (showN (Z.abs_N z)) else showN (Z.abs_N z).

(** What a template literal prints for [${v}]. *)
Definition toString (v : value) : string :=
  match v with
  | Num z => showZ z
  | NaN => "NaN"
  | Undefined => "undefined"
  end.

(** Characters. *)
Definition digit_of (c : ascii) : option (uint -> uint) :=
  match c with
  | "0"%char => Some D0 | "1"%char => Some D1 | "2"%char => Some D2
  | "3"%char => Some D3 | "4"%char => Some D4 | "5"%char => Some D5
  | "6"%char => Some D6 | "7"%char => Some D7 | "8"%char => Some D8
  | "9"%char => Some D9
  | _ => None
  end.

Definition is_digit (c : ascii) : bool :=
  match digit_of c with Some _ => true | None => false end.

(** White space of the 8-bit range: TAB, LF, VT, FF, CR, SP, NBSP. *)
Definition is_space (c : ascii) : bool :=
  let n := N_of_ascii c in
  ((9 <=? n) && (n <=? 13) || (n =? 32) || (n =? 160))%N.

(** The character class of a printed integer. *)
Definition is_numeral_char (c : ascii) : bool :=
  is_digit c || Ascii.eqb c "-".

Fixpoint string_forall (p : ascii -> bool) (s : string) : bool :=
  match s with
  | EmptyString => true
  | String c r => p c && string_forall p r
  end.

(** [s.split(sep)] for a one-character separator: never empty, and an empty
    piece for every separator that has nothing before it. *)
Fixpoint split (sep : ascii) (s : string) : list string :=
  match s with
  | EmptyString => [EmptyString]
  | String c r =>
      if Ascii.eqb c sep then EmptyString :: split sep r
      else match split sep r with
           | p :: ps => String c p :: ps
           | [] => [String c EmptyString]
           end
  end.

(** [s.replace(c, "")] with a string pattern: the first occurrence only. *)
Fixpoint remove_first (c : ascii) (s : string) : string :=
  match s with
  | EmptyString => EmptyString
  | String d r => if Ascii.eqb d c then r else String d (remove_first c r)
  end.

(** [s.replace(/c/g, "")]: every occurrence. *)
Fixpoint remove_all (c : ascii) (s : string) : string :=
  match s with
  | EmptyString => EmptyString
  | String d r => if Ascii.eqb d c then remove_all c r else String d (remove_all c r)
  end.

(** [s.includes(t)]. *)
Fixpoint includes (s t : string) : bool :=
  prefix t s ||
  match s with
  | EmptyString => false
  | String _ r => includes r t
  end.

Fixpoint trimStart (s : string) : string :=
  match s with
  | String c r => if is_space c then trimStart r else s
  | EmptyString => EmptyString
  end.

(** The longest run of decimal digits at the front of [s], and what follows. *)
Fixpoint read_digits (s : string) : uint * string :=
  match s with
  | EmptyString => (Nil, EmptyString)
  | String c r =>
      match digit_of c with
      | Some d => let (u, rest) := read_digits r in (d u, rest)
      | None => (Nil, s)
      end
  end.

(** The number a sign and a run of digits denote; no digit at all is [NaN]. *)
Definition number_of_digits (neg : bool) (u : uint) : value :=
  match u with
  | Nil => NaN
  | _ => let n := Z.of_N (N.of_uint u) in Num (if neg then - n else n)
  end.

(** An optional sign at the front of [s]: whether it is a minus, and the
    rest. *)
Definition read_sign (s : string) : bool * string :=
  match s with
  | String "-" r => (true, r)
  | String "+" r => (false, r)
  | _ => (false, s)
  end.

(** [parseInt(s, 10)]: leading white space, an optional sign, then digits;
    anything after the digits is ignored. *)
Definition parseInt (s : string) : value :=
  let '(neg, s) := read_sign (trimStart s) in
  number_of_digits neg (fst (read_digits s)).

(** [Number.parseFloat(s)] on the integer numerals.  On a numeral with a
    fractional part, an exponent, a leading dot or the word Infinity the
    engine's [parseFloat] keeps what [parseInt] drops; such strings are never
    written by the store itself (only the default theme's [destructive] hue,
    which no rule parses, has a fraction), and every statement below that
    reads a component back states it of a string printed from integers. *)
Definition parseFloat (s : string) : value := parseInt s.

(** Destructuring [const [a, b, c] = xs]. *)
Definition nth_value (xs : list value) (i : nat) : value :=
  nth i xs Undefined.

End JS.

Declare Scope js_scope.
Delimit Scope js_scope with js.
Bind Scope js_scope with JS.value.
Coercion JS.Num : Z >-> JS.value.
Infix "+" := JS.add : js_scope.
Infix "-" := JS.sub : js_scope.
Infix "mod" := JS.rem : js_scope.
Infix "<?" := JS.lt : js_scope.

(** Exceptions: what a [throw] inside an action leaves the caller with. *)
Inductive error : Type :=
| FormatError   (* a colour string the conversions reject *)
| TypeError.    (* a method called on [undefined] *)

Inductive result (A : Type) : Type :=
| Ok (a : A)
| Throw (e : error).
Arguments Ok {A} a.
Arguments Throw {A} e.

Definition bind {A B : Type} (r : result A) (k : A -> result B) : result B :=
  match r with
  | Ok a => k a
  | Throw e => Throw e
  end.

Notation "x <- r ;; k" := (bind r (fun x => k))
  (at level 61, r at next level, right associativity).

(* ================================================================== *)
(** ** The data model (types/theme) *)
(* ================================================================== *)

(** [ThemeColorKey]: the closed set of semantic roles of a palette, in the
    order in which [defaultTheme] lists them. *)
Inductive ThemeColorKey : Type :=
| background | foreground
| card | cardForeground
| popover | popoverForeground
| primary | primaryForeground
| secondary | secondaryForeground
| muted | mutedForeground
| accent | accentForeground
| destructive
| border | input | ring
| chart1 | chart2 | chart3 | chart4 | chart5
| sidebar | sidebarForeground
| sidebarPrimary | sidebarPrimaryForeground
| sidebarAccent | sidebarAccentForeground
| sidebarBorder | sidebarRing.

Scheme Equality for ThemeColorKey.

Definition all_keys : list ThemeColorKey :=
  [ background; foreground; card; cardForeground; popover; popoverForeground;
    primary; primaryForeground; secondary; secondaryForeground;
    muted; mutedForeground; accent; accentForeground; destructive;
    border; input; ring; chart1; chart2; chart3; chart4; chart5;
    sidebar; sidebarForeground; sidebarPrimary; sidebarPrimaryForeground;
    sidebarAccent; sidebarAccentForeground; sidebarBorder; sidebarRing ].

(** The property name of a role, as [Object.entries] and [in] see it. *)
Definition key_name (k : ThemeColorKey) : string :=
  match k with
  | background => "background" | foreground => "foreground"
  | card => "card" | cardForeground => "cardForeground"
  | popover => "popover" | popoverForeground => "popoverForeground"
  | primary => "primary" | primaryForeground => "primaryForeground"
  | secondary => "secondary" | secondaryForeground => "secondaryForeground"
  | muted => "muted" | mutedForeground => "mutedForeground"
  | accent => "accent" | accentForeground => "accentForeground"
  | destructive => "destructive"
  | border => "border" | input => "input" | ring => "ring"
  | chart1 => "chart1" | chart2 => "chart2" | chart3 => "chart3"
  | chart4 => "chart4" | chart5 => "chart5"
  | sidebar => "sidebar" | sidebarForeground => "sidebarForeground"
  | sidebarPrimary => "sidebarPrimary"
  | sidebarPrimaryForeground => "sidebarPrimaryForeground"
  | sidebarAccent => "sidebarAccent"
  | sidebarAccentForeground => "sidebarAccentForeground"
  | sidebarBorder => "sidebarBorder" | sidebarRing => "sidebarRing"
  end.

Definition key_of_name (name : string) : option ThemeColorKey :=
  find (fun k => String.eqb (key_name k) name) all_keys.

(** [ThemeColors]: an object with every role present, each holding an HSL
    string.  [p k] is the property read [p.k]. *)
Definition ThemeColors : Type := ThemeColorKey -> string.

(** The assignment [p[k] = v] on a private copy of a palette. *)
Definition assign (k : ThemeColorKey) (v : string) (p : ThemeColors) : ThemeColors :=
  fun k' => if ThemeColorKey_beq k' k then v else p k'.

Notation "p .[ k := v ]" := (assign k v p)
  (at level 1, left associativity, format "p .[ k  :=  v ]").

Record Fonts : Type := { heading : string; body : string }.

(** [ThemePreset]: a named snapshot in hex; everything but the name is
    optional. *)
Module ThemePreset.
Record t : Type := {
  name : string;
  colors : option (list (string * string));
  fonts : option (option string * option string);   (* heading, body *)
  borderRadius : option Q
}.
End ThemePreset.

Record ThemeState : Type := {
  colors : ThemeColors;
  darkColors : ThemeColors;
  fonts : Fonts;
  borderRadius : Q;
  isDarkMode : bool;
  selectedHarmony : string;
  exportMenuOpen : bool;
  shareMenuOpen : bool;
  predefinedThemes : list ThemePreset.t;
  currentTheme : string
}.

(** The spreads [{ ...state, colors: l, darkColors: d }] and friends. *)
Definition with_palettes (state : ThemeState) (l d : ThemeColors) : ThemeState :=
  {| colors := l; darkColors := d;
     fonts := fonts state; borderRadius := borderRadius state;
     isDarkMode := isDarkMode state; selectedHarmony := selectedHarmony state;
     exportMenuOpen := exportMenuOpen state; shareMenuOpen := shareMenuOpen state;
     predefinedThemes := predefinedThemes state;
     currentTheme := currentTheme state |}.

(* ================================================================== *)
(** ** The colour utilities the store imports (./color-utils) *)
(* ================================================================== *)

(** The store is written against this interface; the module itself is not
    part of the verified sources.  A conversion may throw on a malformed
    string, the contrast resolver never does. *)
Class ColorUtils : Type := {
  hexToHSL : string -> result string;
  hslToHex : string -> result string;
  getContrastHSL : string -> string;
  calculateContrastingColor : string -> option string -> string
}.

(* ================================================================== *)
(** ** The store (lib/store.ts) *)
(* ================================================================== *)

(** The template literal [`${h} ${s}% ${l}%`]. *)
Definition hslString (h s l : JS.value) : string :=
  JS.toString h ++ " " ++ JS.toString s ++ "% " ++ JS.toString l ++ "%".

(** [hsl.split(" ").map((part) => Number.parseFloat(part.replace("%", "")))] *)
Definition parseComponents (hsl : string) : list JS.value :=
  map (fun part => JS.parseFloat (JS.remove_first "%" part)) (JS.split " " hsl).

Module Charts.
Record t : Type := {
  chart1 : string;
  chart2 : string;
  chart3 : string;
  chart4 : string;
  chart5 : string
}.
End Charts.

(** [generateChartColors(primary, secondary, accent, isDarkMode)] *)
Definition generateChartColors
    (primary secondary accent : string) (isDarkMode : bool) : Charts.t :=
  let parts := parseComponents primary in
  let primaryH := JS.nth_value parts 0 in
  let primaryS := JS.nth_value parts 1 in
  let primaryL := JS.nth_value parts 2 in
  if isDarkMode then
    {| Charts.chart1 := primary;
       Charts.chart2 := hslString primaryH (JS.Math_min (primaryS + 5) 90)
                                           (JS.Math_min (primaryL + 15) 70);
       Charts.chart3 := hslString primaryH (JS.Math_min (primaryS + 10) 95)
                                           (JS.Math_min (primaryL + 25) 80);
       Charts.chart4 := hslString primaryH (JS.Math_max (primaryS - 10) 40)
                                           (JS.Math_max (primaryL - 15) 30);
       Charts.chart5 := hslString primaryH (JS.Math_max (primaryS - 20) 30)
                                           (JS.Math_max (primaryL - 25) 20) |}
  else
    {| Charts.chart1 := primary;
       Charts.chart2 := hslString primaryH (JS.Math_max (primaryS - 15) 30)
                                           (JS.Math_min (primaryL + 15) 75);
       Charts.chart3 := hslString primaryH (JS.Math_max (primaryS - 30) 20)
                                           (JS.Math_min (primaryL + 25) 85);
       Charts.chart4 := hslString primaryH (JS.Math_min (primaryS + 10) 90)
                                           (JS.Math_max (primaryL - 15) 25);
       Charts.chart5 := hslString primaryH (JS.Math_min (primaryS + 5) 85)
                                           (JS.Math_max (primaryL - 25) 20) |}.

(** The five assignments [p.chart1 = c.chart1; ...; p.chart5 = c.chart5]. *)
Definition assign_charts (c : Charts.t) (p : ThemeColors) : ThemeColors :=
  p.[chart1 := Charts.chart1 c].[chart2 := Charts.chart2 c]
   .[chart3 := Charts.chart3 c].[chart4 := Charts.chart4 c]
   .[chart5 := Charts.chart5 c].

Section Store.

Context {CU : ColorUtils}.

(** [calculateContrastingColor(bg)] with the role argument left out. *)
Definition contrasting (bg : string) : string :=
  calculateContrastingColor bg None.

(** [deriveDarkModeColors(lightColors)] *)
Definition deriveDarkModeColors (lightColors : ThemeColors) : ThemeColors :=
  let darkColors := lightColors in
  let p := parseComponents (lightColors primary) in
  let primaryH := JS.nth_value p 0 in
  let primaryS := JS.nth_value p 1 in
  let primaryL := JS.nth_value p 2 in
  let s := parseComponents (lightColors secondary) in
  let secondaryH := JS.nth_value s 0 in
  let secondaryS := JS.nth_value s 1 in
  let secondaryL := JS.nth_value s 2 in
  let a := parseComponents (lightColors accent) in
  let accentH := JS.nth_value a 0 in
  let accentS := JS.nth_value a 1 in
  let accentL := JS.nth_value a 2 in
  let darkColors := darkColors.[background := hslString primaryH 30 8] in
  let darkColors := darkColors.[card := hslString primaryH 30 12] in
  let darkColors := darkColors.[popover := darkColors card] in
  let darkColors := darkColors.[foreground := hslString primaryH 10 95] in
  let darkColors := darkColors.[cardForeground := darkColors foreground] in
  let darkColors := darkColors.[popoverForeground := darkColors foreground] in
  let darkColors :=
    darkColors.[primary := hslString primaryH (JS.Math_max primaryS 60)
                             (JS.Math_min (JS.Math_max primaryL 50) 60)] in
  let darkColors := darkColors.[ring := darkColors primary] in
  let darkColors :=
    darkColors.[primaryForeground := contrasting (darkColors primary)] in
  let darkColors :=
    darkColors.[secondary := hslString secondaryH (JS.Math_max secondaryS 10)
                               (JS.Math_max 15 (JS.Math_min 25 (secondaryL - 70)))] in
  let darkColors :=
    darkColors.[secondaryForeground := contrasting (darkColors secondary)] in
  let darkColors := darkColors.[muted := darkColors secondary] in
  let darkColors := darkColors.[mutedForeground := hslString secondaryH 15 65] in
  let darkColors :=
    darkColors.[accent := hslString accentH (JS.Math_max accentS 60)
                            (JS.Math_min (JS.Math_max (accentL - 20) 40) 60)] in
  let darkColors :=
    darkColors.[accentForeground := contrasting (darkColors accent)] in
  let darkColors := darkColors.[border := hslString primaryH 25 18] in
  let darkColors := darkColors.[input := darkColors border] in
  let darkColors := darkColors.[sidebar := darkColors background] in
  let darkColors := darkColors.[sidebarForeground := darkColors foreground] in
  let darkColors := darkColors.[sidebarPrimary := darkColors primary] in
  let darkColors :=
    darkColors.[sidebarPrimaryForeground := darkColors primaryForeground] in
  let darkColors := darkColors.[sidebarAccent := darkColors accent] in
  let darkColors :=
    darkColors.[sidebarAccentForeground := darkColors accentForeground] in
  let darkColors := darkColors.[sidebarBorder := darkColors border] in
  let darkColors := darkColors.[sidebarRing := darkColors ring] in
  let chartColors :=
    generateChartColors (darkColors primary) (darkColors secondary)
                        (darkColors accent) true in
  assign_charts chartColors darkColors.

(** [updateThemeColor(key, hexValue)]: the function handed to [set], run on
    the current state.  [hexToHSL] is called before [set], so an exception
    of the conversion leaves the store as it was; so does a [TypeError] raised
    inside the updater.  The writes to the CSS custom properties and to the
    address bar that follow the computation of [newState] go to the document
    and do not flow back into the store; they are not part of the state
    transition. *)
Definition updateThemeColor (key : ThemeColorKey) (hexValue : string)
    (state : ThemeState) : result ThemeState :=
  hslValue <- hexToHSL hexValue ;;
  let lightColors := colors state in
  let darkColors := darkColors state in
  let isDarkMode := isDarkMode state in
  if ThemeColorKey_beq key primary && isDarkMode then
    match JS.split " " hslValue with
    | hStr :: sStr :: lStr :: _ =>
        let h := JS.parseInt hStr in
        let s := JS.parseInt (JS.remove_first "%" sStr) in
        let l := JS.parseInt (JS.remove_first "%" lStr) in
        let darkColors := darkColors.[primary := hslValue] in
        let darkColors := darkColors.[ring := hslValue] in
        let darkColors := darkColors.[sidebarPrimary := hslValue] in
        let darkColors := darkColors.[chart1 := hslValue] in
        let isPrimaryDark := (l <? 40)%js in
        let darkColors :=
          darkColors.[primaryForeground :=
                        if isPrimaryDark then "0 0% 100%" else hslString h 10 95] in
        let darkColors :=
          darkColors.[sidebarPrimaryForeground := darkColors primaryForeground] in
        let darkSecondaryH := h in
        let darkSecondaryS := JS.Math_max (JS.Math_min (s - 40) 30) 7 in
        let darkSecondaryL := JS.Math_max (JS.Math_min (l - 20) 30) 15 in
        let darkSecondaryHSLValue :=
          hslString darkSecondaryH darkSecondaryS darkSecondaryL in
        let darkColors := darkColors.[secondary := darkSecondaryHSLValue] in
        let darkColors := darkColors.[muted := darkSecondaryHSLValue] in
        let darkColors :=
          darkColors.[secondaryForeground := hslString darkSecondaryH 10 95] in
        let darkColors :=
          darkColors.[mutedForeground := hslString darkSecondaryH 15 65] in
        let darkAccentH := ((h + 30) mod 360)%js in
        let darkAccentS := JS.Math_min (s + 5) 80 in
        let darkAccentL := JS.Math_min (l + 15) 65 in
        let darkAccentHSLValue := hslString darkAccentH darkAccentS darkAccentL in
        let darkColors := darkColors.[accent := darkAccentHSLValue] in
        let darkColors :=
          darkColors.[accentForeground := hslString darkAccentH 50 10] in
        let darkColors := darkColors.[sidebarAccent := darkAccentHSLValue] in
        let darkColors :=
          darkColors.[sidebarAccentForeground := hslString darkAccentH 50 10] in
        let darkColors :=
          darkColors.[border := hslString darkSecondaryH (darkSecondaryS + 5)
                                  (JS.Math_min (darkSecondaryL + 10) 30)] in
        let darkColors := darkColors.[input := darkColors border] in
        let darkColors := darkColors.[sidebarBorder := darkColors border] in
        let darkChartColors :=
          {| Charts.chart1 := hslValue;
             Charts.chart2 := hslString h (JS.Math_min (s + 5) 90)
                                          (JS.Math_min (l + 15) 75);
             Charts.chart3 := hslString h (JS.Math_min (s + 10) 95)
                                          (JS.Math_min (l + 25) 85);
             Charts.chart4 := hslString h (JS.Math_max (s - 10) 40)
                                          (JS.Math_max (l - 15) 25);
             Charts.chart5 := hslString h (JS.Math_max (s - 20) 30)
                                          (JS.Math_max (l - 25) 15) |} in
        let darkColors := assign_charts darkChartColors darkColors in
        Ok (with_palettes state lightColors darkColors)
    | _ => Throw TypeError
    end
  else
    let '(lightColors, darkColors) :=
      match key with
      | background =>
          let lightColors := lightColors.[background := hslValue] in
          let lightColors := lightColors.[card := hslValue] in
          let lightColors := lightColors.[popover := hslValue] in
          if isDarkMode then
            (lightColors,
             darkColors.[background := hslValue].[card := hslValue]
                       .[popover := hslValue].[sidebar := hslValue])
          else (lightColors, darkColors)
      | foreground =>
          let lightColors := lightColors.[foreground := hslValue] in
          let lightColors := lightColors.[cardForeground := hslValue] in
          let lightColors := lightColors.[popoverForeground := hslValue] in
          let darkColors := darkColors.[foreground := getContrastHSL hslValue] in
          let darkColors := darkColors.[cardForeground := darkColors foreground] in
          let darkColors := darkColors.[popoverForeground := darkColors foreground] in
          (lightColors, darkColors)
      | primary =>
          let lightColors := lightColors.[primary := hslValue] in
          let lightColors :=
            lightColors.[primaryForeground := contrasting hslValue] in
          let lightColors := lightColors.[ring := hslValue] in
          let lightColors := lightColors.[sidebarPrimary := hslValue] in
          let lightColors :=
            lightColors.[sidebarPrimaryForeground := contrasting hslValue] in
          let lightColors := lightColors.[sidebarRing := hslValue] in
          let lightChartColors :=
            generateChartColors hslValue (lightColors secondary)
                                (lightColors accent) false in
          let lightColors := assign_charts lightChartColors lightColors in
          if negb isDarkMode then
            let darkChartColors :=
              generateChartColors (darkColors primary) (darkColors secondary)
                                  (darkColors accent) true in
            let darkColors := assign_charts darkChartColors darkColors in
            let darkColors := darkColors.[primary := hslValue] in
            let darkColors :=
              darkColors.[primaryForeground := contrasting hslValue] in
            let darkColors := darkColors.[ring := hslValue] in
            let darkColors := darkColors.[sidebarPrimary := hslValue] in
            let darkColors :=
              darkColors.[sidebarPrimaryForeground := contrasting hslValue] in
            let darkColors := darkColors.[sidebarRing := hslValue] in
            (lightColors, darkColors)
          else (lightColors, darkColors)
      | secondary =>
          let lightColors := lightColors.[secondary := hslValue] in
          let lightColors :=
            lightColors.[secondaryForeground := contrasting hslValue] in
          let lightColors := lightColors.[muted := hslValue] in
          let lightColors :=
            lightColors.[mutedForeground :=
                           calculateContrastingColor hslValue
                                                     (Some "mutedForeground")] in
          let lightColors := lightColors.[sidebar := hslValue] in
          let lightColors :=
            lightColors.[sidebarForeground := contrasting hslValue] in
          let lightChartColors :=
            generateChartColors (lightColors primary) hslValue
                                (lightColors accent) false in
          let lightColors := assign_charts lightChartColors lightColors in
          if negb isDarkMode then
            let darkChartColors :=
              generateChartColors (darkColors primary) (darkColors secondary)
                                  (darkColors accent) true in
            let darkColors := assign_charts darkChartColors darkColors in
            let parts := parseComponents hslValue in
            let h := JS.nth_value parts 0 in
            let s := JS.nth_value parts 1 in
            let l := JS.nth_value parts 2 in
            let secondaryL := l in
            let darkColors :=
              darkColors.[secondary :=
                            hslString h (JS.Math_max (s - 20) 10)
                              (JS.Math_max 15 (JS.Math_min 25 (secondaryL - 70)))] in
            let darkColors :=
              darkColors.[secondaryForeground := contrasting (darkColors secondary)] in
            let darkColors := darkColors.[muted := darkColors secondary] in
            let darkColors :=
              darkColors.[mutedForeground :=
                            calculateContrastingColor (darkColors secondary)
                                                      (Some "mutedForeground")] in
            (lightColors, darkColors)
          else (lightColors, darkColors)
      | accent =>
          let lightColors := lightColors.[accent := hslValue] in
          let lightColors :=
            lightColors.[accentForeground := contrasting hslValue] in
          let lightColors := lightColors.[sidebarAccent := hslValue] in
          let lightColors :=
            lightColors.[sidebarAccentForeground := contrasting hslValue] in
          let lightChartColors :=
            generateChartColors (lightColors primary) (lightColors secondary)
                                hslValue false in
          let lightColors := assign_charts lightChartColors lightColors in
          if negb isDarkMode then
            let darkChartColors :=
              generateChartColors (darkColors primary) (darkColors secondary)
                                  (darkColors accent) true in
            let darkColors := assign_charts darkChartColors darkColors in
            let darkColors := darkColors.[accent := hslValue] in
            let darkColors :=
              darkColors.[accentForeground := contrasting hslValue] in
            let darkColors := darkColors.[sidebarAccent := hslValue] in
            let darkColors :=
              darkColors.[sidebarAccentForeground := contrasting hslValue] in
            (lightColors, darkColors)
          else (lightColors, darkColors)
      | _ =>
          (lightColors.[key := hslValue], darkColors.[key := hslValue])
      end in
    Ok (with_palettes state lightColors darkColors).

(** A JavaScript truthiness test on an optional string: present and not
    empty. *)
Definition truthy (o : option string) : bool :=
  match o with
  | Some s => negb (String.eqb s "")
  | None => false
  end.

(** [if (o) x = o]: the optional string when it is truthy, the previous
    value otherwise. *)
Definition if_truthy (o : option string) (previous : string) : string :=
  match o with
  | Some v => if truthy o then v else previous
  | None => previous
  end.

(** [theme.colors.k] on the entries of a preset's colour object (an object
    literal: its property names are pairwise distinct). *)
Fixpoint preset_color (entries : list (string * string)) (k : string) : option string :=
  match entries with
  | [] => None
  | (k', v) :: rest => if String.eqb k' k then Some v else preset_color rest k
  end.

(** The loop
    [Object.entries(theme.colors).forEach(([key, value]) => {
       if (key in newLightColors && !key.includes("foreground"))
         newLightColors[key] = hexToHSL(value); })] *)
Fixpoint apply_preset_colors (entries : list (string * string))
    (newLightColors : ThemeColors) : result ThemeColors :=
  match entries with
  | [] => Ok newLightColors
  | (key, value) :: rest =>
      match key_of_name key with
      | Some k =>
          if negb (JS.includes key "foreground") then
            hsl <- hexToHSL value ;;
            apply_preset_colors rest newLightColors.[k := hsl]
          else apply_preset_colors rest newLightColors
      | None => apply_preset_colors rest newLightColors
      end
  end.

(** One of the five blocks [if (theme.colors.chartN) { ... }]. *)
Definition apply_preset_chart (entries : list (string * string)) (k : ThemeColorKey)
    (palettes : ThemeColors * ThemeColors) : result (ThemeColors * ThemeColors) :=
  let '(newLightColors, newDarkColors) := palettes in
  let c := preset_color entries (key_name k) in
  if truthy c then
    match c with
    | Some hex =>
        hsl <- hexToHSL hex ;;
        let newLightColors := newLightColors.[k := hsl] in
        let parts := parseComponents (newLightColors k) in
        let h := JS.nth_value parts 0 in
        let s := JS.nth_value parts 1 in
        let l := JS.nth_value parts 2 in
        Ok (newLightColors,
            newDarkColors.[k := hslString h (JS.Math_max s 60)
                                   (JS.Math_min (JS.Math_max l 50) 60)])
    | None => Ok palettes
    end
  else Ok palettes.

(** [setCurrentTheme(themeName)] *)
Definition setCurrentTheme (themeName : string) (state : ThemeState) : result ThemeState :=
  match find (fun t => String.eqb (ThemePreset.name t) themeName)
             (predefinedThemes state) with
  | None => Ok state
  | Some theme =>
      let newLightColors := colors state in
      let newDarkColors := darkColors state in
      palettes <-
        match ThemePreset.colors theme with
        | Some entries =>
            newLightColors <- apply_preset_colors entries newLightColors ;;
            let newLightColors :=
              newLightColors.[primaryForeground := contrasting (newLightColors primary)] in
            let newLightColors :=
              newLightColors.[secondaryForeground := contrasting (newLightColors secondary)] in
            let newLightColors :=
              newLightColors.[accentForeground := contrasting (newLightColors accent)] in
            let newLightColors :=
              newLightColors.[mutedForeground :=
                                calculateContrastingColor (newLightColors muted)
                                                          (Some "mutedForeground")] in
            let newLightColors :=
              newLightColors.[cardForeground := contrasting (newLightColors card)] in
            let newLightColors :=
              newLightColors.[popoverForeground := contrasting (newLightColors popover)] in
            let newLightColors :=
              newLightColors.[sidebarForeground := contrasting (newLightColors sidebar)] in
            let newLightColors :=
              newLightColors.[sidebarPrimaryForeground :=
                                contrasting (newLightColors sidebarPrimary)] in
            let newLightColors :=
              newLightColors.[sidebarAccentForeground :=
                                contrasting (newLightColors sidebarAccent)] in
            let generatedDarkColors := deriveDarkModeColors newLightColors in
            let newDarkColors : ThemeColors := fun key => generatedDarkColors key in
            ps <- apply_preset_chart entries chart1 (newLightColors, newDarkColors) ;;
            ps <- apply_preset_chart entries chart2 ps ;;
            ps <- apply_preset_chart entries chart3 ps ;;
            ps <- apply_preset_chart entries chart4 ps ;;
            apply_preset_chart entries chart5 ps
        | None => Ok (newLightColors, newDarkColors)
        end ;;
      let '(newLightColors, newDarkColors) := palettes in
      let newFonts :=
        match ThemePreset.fonts theme with
        | Some (h, b) =>
            {| heading := if_truthy h (heading (fonts state));
               body := if_truthy b (body (fonts state)) |}
        | None => fonts state
        end in
      let newBorderRadius :=
        match ThemePreset.borderRadius theme with
        | Some r => r
        | None => borderRadius state
        end in
      Ok {| colors := newLightColors; darkColors := newDarkColors;
            fonts := newFonts; borderRadius := newBorderRadius;
            isDarkMode := isDarkMode state;
            selectedHarmony := selectedHarmony state;
            exportMenuOpen := exportMenuOpen state;
            shareMenuOpen := shareMenuOpen state;
            predefinedThemes := predefinedThemes state;
            currentTheme := themeName |}
  end.

(** [getHexColor(colorKey)] *)
Definition getHexColor (colorKey : ThemeColorKey) (state : ThemeState) : result string :=
  let colors := if isDarkMode state then darkColors state else colors state in
  match colorKey with
  | foreground => hslToHex (colors foreground)
  | background => hslToHex (colors background)
  | primary => hslToHex (colors primary)
  | secondary => hslToHex (colors secondary)
  | accent => hslToHex (colors accent)
  | _ => Ok "#000000"
  end.

End Store.

(* ================================================================== *)
(** ** The shareable-link encoder *)
(* ================================================================== *)

(** The platform functions [JSON.stringify] and [btoa] on the values the
    encoder builds.  Strings are sequences of 8-bit code units, on which
    [btoa] cannot throw. *)
Module Platform.

#[local] Unset Elimination Schemes.
Inductive json : Type :=
| JNull
| JNum (q : Q)
| JStr (s : string)
| JArr (items : list json)
| JObj (fields : list (string * json)).
#[local] Set Elimination Schemes.

Definition digit_char (d : Z) : ascii := ascii_of_N (48 + Z.to_N d).

(** The digits of [r / d] after the point, for [0 <= r < d], until the
    remainder vanishes. *)
Fixpoint fraction_digits (fuel : nat) (r d : Z) : string :=
  match fuel with
  | O => EmptyString
  | S fuel' =>
      if r =? 0 then EmptyString
      else String (digit_char (r * 10 / d)) (fraction_digits fuel' ((r * 10) mod d) d)
  end.

(** A number as [JSON.stringify] prints it: an integer in plain decimal, a
    short finite decimal such as 0.5 with its digits (up to seventeen of them,
    the precision of a double). *)
Definition showNumber (q : Q) : string :=
  let n := Qnum q in
  let d := Z.pos (Qden q) in
  let a := Z.abs n in
  let frac := fraction_digits 17 (a mod d) d in
  let body :=
    if String.eqb frac "" then JS.showN (Z.to_N (a / d))
    else JS.showN (Z.to_N (a / d)) ++ "." ++ frac in
  if (n <? 0) && negb (String.eqb body "0") then String "-" body else body.

Definition hex_digit (n : N) : ascii :=
  if (n <? 10)%N then ascii_of_N (48 + n) else ascii_of_N (87 + n).

(** The double quote, by its code. *)
Definition dquote : ascii := ascii_of_N 34.

(** The escapes of a JSON string literal. *)
Definition escape_char (c : ascii) : string :=
  let n := N_of_ascii c in
  if Ascii.eqb c dquote then String "\" (String dquote EmptyString)
  else if Ascii.eqb c "\" then "\\"
  else if (n =? 8)%N then "\b"
  else if (n =? 9)%N then "\t"
  else if (n =? 10)%N then "\n"
  else if (n =? 12)%N then "\f"
  else if (n =? 13)%N then "\r"
  else if (n <? 32)%N then
    "\u00" ++ String (hex_digit (n / 16)) (String (hex_digit (n mod 16)) "")
  else String c "".

Fixpoint escape (s : string) : string :=
  match s with
  | EmptyString => EmptyString
  | String c r => escape_char c ++ escape r
  end.

Definition quote (s : string) : string :=
  String dquote (escape s ++ String dquote EmptyString).

Fixpoint JSON_stringify (j : json) : string :=
  match j with
  | JNull => "null"
  | JNum q => showNumber q
  | JStr s => quote s
  | JArr items =>
      "[" ++
      (fix go (l : list json) : string :=
         match l with
         | [] => ""
         | [x] => JSON_stringify x
         | x :: r => JSON_stringify x ++ "," ++ go r
         end) items ++ "]"
  | JObj fields =>
      "{" ++
      (fix go (l : list (string * json)) : string :=
         match l with
         | [] => ""
         | [(k, v)] => quote k ++ ":" ++ JSON_stringify v
         | (k, v) :: r => quote k ++ ":" ++ JSON_stringify v ++ "," ++ go r
         end) fields ++ "}"
  end.

Definition base64_alphabet : string :=
  "ABCDEFGHIJKLMNOPQRSTUVWXYZabcdefghijklmnopqrstuvwxyz0123456789+/".

Definition base64_char (n : N) : ascii :=
  match String.get (N.to_nat n) base64_alphabet with
  | Some c => c
  | None => "="%char
  end.

Fixpoint base64 (bytes : list N) : string :=
  match bytes with
  | [] => EmptyString
  | [a] =>
      String (base64_char (a / 4))
        (String (base64_char (a mod 4 * 16)) "==")
  | [a; b] =>
      String (base64_char (a / 4))
        (String (base64_char (a mod 4 * 16 + b / 16))
           (String (base64_char (b mod 16 * 4)) "="))
  | a :: b :: c :: rest =>
      String (base64_char (a / 4))
        (String (base64_char (a mod 4 * 16 + b / 16))
           (String (base64_char (b mod 16 * 4 + c / 64))
              (String (base64_char (c mod 64)) (base64 rest))))
  end%N.

Definition btoa (s : string) : string :=
  base64 (map N_of_ascii (list_ascii_of_string s)).

End Platform.

Import Platform.

(** [hsl.replace(/\s+/g, ",")]: one comma for each maximal run of white
    space. *)
Fixpoint replace_space_runs (in_run : bool) (s : string) : string :=
  match s with
  | EmptyString => EmptyString
  | String c r =>
      if JS.is_space c then
        if in_run then replace_space_runs true r
        else String "," (replace_space_runs true r)
      else String c (replace_space_runs false r)
  end.

(** [compactHSL(hsl)]: ["120 50% 75%"] becomes ["120,50,75"]. *)
Definition compactHSL (hsl : string) : string :=
  JS.remove_all "%" (replace_space_runs false hsl).

(** The six colours the link carries for one mode. *)
Definition essentialColors (p : ThemeColors) : json :=
  JObj [ ("bg", JStr (compactHSL (p background)));
         ("fg", JStr (compactHSL (p foreground)));
         ("p", JStr (compactHSL (p primary)));
         ("s", JStr (compactHSL (p secondary)));
         ("a", JStr (compactHSL (p accent)));
         ("d", JStr (compactHSL (p destructive))) ].

(** A conditional spread [...(cond && { k: v })]. *)
Definition spread_if (cond : bool) (k : string) (v : json) : list (string * json) :=
  if cond then [(k, v)] else [].

(** The object literal [minimalTheme] of [encodeThemeState]. *)
Definition minimalTheme (theme : ThemeState) : list (string * json) :=
  let h := heading (fonts theme) in
  let b := body (fonts theme) in
  [("l", essentialColors (colors theme))]
  ++ spread_if (isDarkMode theme) "d" (essentialColors (darkColors theme))
  ++ spread_if (negb (String.eqb h "Geist") || negb (String.eqb b "Geist")) "f"
       (JArr [ if String.eqb h "Geist" then JNull else JStr h;
               if String.eqb b "Geist" then JNull else JStr b ])
  ++ spread_if (negb (Qeq_bool (borderRadius theme) 8)) "r" (JNum (borderRadius theme))
  ++ spread_if (isDarkMode theme) "dm" (JNum 1).

(** The clean-up of the font pair that follows the literal:
    [[null, null]] is deleted, a trailing [null] is dropped. *)
Fixpoint tidy_fonts (fields : list (string * json)) : list (string * json) :=
  match fields with
  | [] => []
  | (k, v) :: rest =>
      if String.eqb k "f" then
        match v with
        | JArr [JNull; JNull] => rest
        | JArr [JNull; f1] => (k, JArr [JNull; f1]) :: rest
        | JArr [f0; JNull] => (k, JArr [f0]) :: rest
        | _ => (k, v) :: rest
        end
      else (k, v) :: tidy_fonts rest
  end.

(** The object that is handed to [JSON.stringify]. *)
Definition encodedObject (theme : ThemeState) : list (string * json) :=
  tidy_fonts (minimalTheme theme).

(** [encodeThemeState(theme)] *)
Definition encodeThemeState (theme : ThemeState) : string :=
  btoa (JSON_stringify (JObj (encodedObject theme))).

(** Whether the encoded object has a property [k]. *)
Definition has_field (k : string) (fields : list (string * json)) : bool :=
  existsb (fun kv => String.eqb (fst kv) k) fields.

(* ================================================================== *)
(** ** The default theme *)
(* ================================================================== *)

Definition defaultLightColors : ThemeColors := fun k =>
  match k with
  | background => "0 0% 100%"
  | foreground => "291 10% 4%"
  | card => "0 0% 100%"
  | cardForeground => "291 10% 4%"
  | popover => "0 0% 100%"
  | popoverForeground => "291 10% 4%"
  | primary => "291 80% 45%"
  | primaryForeground => "291 10% 95%"
  | secondary => "291 30% 85%"
  | secondaryForeground => "291 30% 10%"
  | muted => "291 30% 85%"
  | mutedForeground => "291 30% 45%"
  | accent => "291 50% 75%"
  | accentForeground => "291 50% 10%"
  | destructive => "357.18 100% 45%"
  | border => "291 30% 80%"
  | input => "291 30% 80%"
  | ring => "291 80% 45%"
  | chart1 => "291 80% 45%"
  | chart2 => "291 70% 60%"
  | chart3 => "291 60% 70%"
  | chart4 => "291 85% 30%"
  | chart5 => "291 85% 20%"
  | sidebar => "291 30% 85%"
  | sidebarForeground => "291 30% 10%"
  | sidebarPrimary => "291 80% 45%"
  | sidebarPrimaryForeground => "291 10% 95%"
  | sidebarAccent => "291 50% 75%"
  | sidebarAccentForeground => "291 50% 10%"
  | sidebarBorder => "291 30% 80%"
  | sidebarRing => "291 80% 45%"
  end.

Definition defaultDarkColors : ThemeColors := fun k =>
  match k with
  | background => "291 40% 8%"
  | foreground => "291 10% 95%"
  | card => "291 40% 12%"
  | cardForeground => "291 10% 95%"
  | popover => "291 40% 12%"
  | popoverForeground => "291 10% 95%"
  | primary => "291 75% 50%"
  | primaryForeground => "291 10% 95%"
  | secondary => "291 30% 15%"
  | secondaryForeground => "291 30% 95%"
  | muted => "291 30% 15%"
  | mutedForeground => "291 15% 65%"
  | accent => "291 50% 25%"
  | accentForeground => "291 50% 95%"
  | destructive => "357.18 100% 45%"
  | border => "291 40% 25%"
  | input => "291 40% 25%"
  | ring => "291 75% 50%"
  | chart1 => "291 75% 50%"
  | chart2 => "291 80% 65%"
  | chart3 => "291 85% 75%"
  | chart4 => "291 65% 35%"
  | chart5 => "291 50% 25%"
  | sidebar => "291 40% 8%"
  | sidebarForeground => "291 10% 95%"
  | sidebarPrimary => "291 75% 50%"
  | sidebarPrimaryForeground => "291 10% 95%"
  | sidebarAccent => "291 50% 25%"
  | sidebarAccentForeground => "291 50% 95%"
  | sidebarBorder => "291 40% 25%"
  | sidebarRing => "291 75% 50%"
  end.

Definition defaultPreset : ThemePreset.t :=
  {| ThemePreset.name := "Default";
     ThemePreset.colors :=
       Some [ ("background", "#ffffff"); ("foreground", "#0a090f");
              ("primary", "#7a3be0"); ("secondary", "#dbd2f5");
              ("accent", "#c48bea");
              ("chart1", "#7a3be0"); ("chart2", "#9a50e5");
              ("chart3", "#b972e8"); ("chart4", "#5524da");
              ("chart5", "#300cbe") ];
     ThemePreset.fonts := Some (Some "Geist", Some "Geist");
     ThemePreset.borderRadius := None |}.

Definition defaultTheme : ThemeState :=
  {| colors := defaultLightColors;
     darkColors := defaultDarkColors;
     fonts := {| heading := "Geist"; body := "Geist" |};
     borderRadius := 0.5;
     isDarkMode := false;
     selectedHarmony := "monochromatic";
     exportMenuOpen := false;
     shareMenuOpen := false;
     predefinedThemes := [defaultPreset];
     currentTheme := "Default" |}.

(** [toggleDarkMode()] *)
Definition toggleDarkMode (state : ThemeState) : ThemeState :=
  {| colors := colors state; darkColors := darkColors state;
     fonts := fonts state; borderRadius := borderRadius state;
     isDarkMode := negb (isDarkMode state);
     selectedHarmony := selectedHarmony state;
     exportMenuOpen := exportMenuOpen state;
     shareMenuOpen := shareMenuOpen state;
     predefinedThemes := predefinedThemes state;
     currentTheme := currentTheme state |}.

(* ================================================================== *)
(** ** A model of ./color-utils *)
(* ================================================================== *)

Module SpecColorUtils.

Definition hex_value (c : ascii) : option Z :=
  let n := Z.of_N (N_of_ascii c) in
  if (48 <=? n) && (n <=? 57) then Some (n - 48)
  else if (97 <=? n) && (n <=? 102) then Some (n - 87)
  else if (65 <=? n) && (n <=? 70) then Some (n - 55)
  else None.

Fixpoint hex_values (s : string) : option (list Z) :=
  match s with
  | EmptyString => Some []
  | String c r =>
      match hex_value c, hex_values r with
      | Some v, Some vs => Some (v :: vs)
      | _, _ => None
      end
  end.

(** The channel two hex digits denote. *)
Definition channel (hi lo : Z) : Z := 16 * hi + lo.

(** The three channels of ["#rrggbb"], or of ["#rgb"] with each digit
    doubled (the hash is optional). *)
Definition parseHex (hex : string) : option (Z * Z * Z) :=
  let digits := match hex with String "#" r => r | _ => hex end in
  match hex_values digits with
  | Some [r; g; b] => Some (channel r r, channel g g, channel b b)
  | Some [r1; r0; g1; g0; b1; b0] =>
      Some (channel r1 r0, channel g1 g0, channel b1 b0)
  | _ => None
  end.

(** [Math.round] of the fraction [n / d], [d > 0]. *)
Definition round_div (n d : Z) : Z := (2 * n + d) / (2 * d).

(** Hue in degrees, saturation and lightness in percent, each rounded to an
    integer. *)
Definition rgbToHSL (rgb : Z * Z * Z) : Z * Z * Z :=
  let '(r, g, b) := rgb in
  let mx := Z.max r (Z.max g b) in
  let mn := Z.min r (Z.min g b) in
  let d := mx - mn in
  let l := round_div (100 * (mx + mn)) 510 in
  if d =? 0 then (0, 0, l)
  else
    let s :=
      if 255 <? mx + mn then round_div (100 * d) (510 - mx - mn)
      else round_div (100 * d) (mx + mn) in
    let h :=
      if mx =? r then round_div (60 * (g - b) + (if g <? b then 360 * d else 0)) d
      else if mx =? g then round_div (60 * (b - r) + 120 * d) d
      else round_div (60 * (r - g) + 240 * d) d in
    (h, s, l).

(** Modelled from the spec: [hexToHSL] of color-utils, which is not among
    the sources.  "Conversions hex to HSL, HSL components rounded to integers,
    hex channels are 0..255 integers"; "malformed hex strings (without a
    valid 3/6-digit body) fail with a FormatError". *)
Definition hexToHSL (hex : string) : result string :=
  match parseHex hex with
  | Some rgb => let '(h, s, l) := rgbToHSL rgb in Ok (hslString h s l)
  | None => Throw FormatError
  end.

Definition hex_byte (v : Z) : string :=
  let n := Z.to_N v in
  String (Platform.hex_digit (n / 16)) (String (Platform.hex_digit (n mod 16)) EmptyString).

(** One channel of an HSL colour, 0..255: [n] is 0, 8 or 4 for red, green
    and blue. *)
Definition hslChannel (h s l n : Z) : Z :=
  let k := Z.modulo (30 * n + h) 360 in
  let t := Z.max (Z.min (Z.min (k - 90) (270 - k)) 30) (-30) in
  round_div (255 * (3000 * l - s * Z.min l (100 - l) * t)) 300000.

(** Modelled from the spec: [hslToHex] of color-utils, which is not among
    the sources.  "Round-trip-safe conversions hex to HSL and back; an HSL
    string missing a component fails with a FormatError". *)
Definition hslToHex (hsl : string) : result string :=
  match parseComponents hsl with
  | [JS.Num h; JS.Num s; JS.Num l] =>
      Ok (String "#" (hex_byte (hslChannel h s l 0) ++ hex_byte (hslChannel h s l 8)
                      ++ hex_byte (hslChannel h s l 4)))
  | _ => Throw FormatError
  end.

(** Modelled from the spec: the Contrast Resolver [calculateContrastingColor]
    of color-utils, which is not among the sources.  "If the lightness is
    below a legibility threshold (45 to 50 on the 0..100 scale), return a
    light foreground tuned to the same hue (hue, 10%, 95%); otherwise return a
    dark foreground (same hue, low saturation, low lightness).  The muted role
    uses a softer contrast, mid-saturation, mid-lightness."  The threshold is
    taken at 50, the dark foreground at 10% 10%, and the muted foregrounds are
    the two the store itself writes (15% 65% on dark, 30% 45% on light). *)
Definition calculateContrastingColor (bg : string) (role : option string) : string :=
  let parts := parseComponents bg in
  let h := JS.nth_value parts 0 in
  let l := JS.nth_value parts 2 in
  let muted_role :=
    match role with
    | Some r => String.eqb r "mutedForeground"
    | None => false
    end in
  if muted_role then
    if (l <? 50)%js then hslString h 15 65 else hslString h 30 45
  else
    if (l <? 50)%js then hslString h 10 95 else hslString h 10 10.

(** Modelled from the spec: [getContrastHSL] of color-utils, the Contrast
    Resolver at its default role. *)
Definition getContrastHSL (bg : string) : string :=
  calculateContrastingColor bg None.

End SpecColorUtils.

#[export] Instance specColorUtils : ColorUtils :=
  {| hexToHSL := SpecColorUtils.hexToHSL;
     hslToHex := SpecColorUtils.hslToHex;
     getContrastHSL := SpecColorUtils.getContrastHSL;
     calculateContrastingColor := SpecColorUtils.calculateContrastingColor |}.

(* ================================================================== *)
(** ** Vocabulary of the statements *)
(* ================================================================== *)

(** The five seed roles. *)
Definition is_seed (k : ThemeColorKey) : bool :=
  match k with
  | background | foreground | primary | secondary | accent => true
  | _ => false
  end.

(** The surface roles a background edit writes. *)
Definition is_surface (k : ThemeColorKey) : bool :=
  match k with
  | background | card | popover => true
  | _ => false
  end.

(** The palette of the mode that is active. *)
Definition activeColors (state : ThemeState) : ThemeColors :=
  if isDarkMode state then darkColors state else colors state.

(** The lightness component of an HSL string, read the way the store reads
    it. *)
Definition lightness (hsl : string) : JS.value :=
  JS.nth_value (parseComponents hsl) 2.

(** The default theme after [toggleDarkMode()]: dark mode active. *)
Definition darkDefaultTheme : ThemeState := toggleDarkMode defaultTheme.

Arguments hslString : simpl never.

(* ================================================================== *)
(** ** More of the store: harmony generation and custom presets *)
(* ================================================================== *)

(** The saturation component of an HSL string, read the way the store reads
    it. *)
Definition saturation (hsl : string) : JS.value :=
  JS.nth_value (parseComponents hsl) 1.

(** A palette that holds [p], [s] and [a] at the three chromatic seed roles
    and [d] everywhere else. *)
Definition seedPalette (p s a d : string) : ThemeColors := fun k =>
  match k with
  | primary => p
  | secondary => s
  | accent => a
  | _ => d
  end.

(** The digits of a hexadecimal numeral at the front of [s], most significant
    first, folded into [acc]; [None] as long as no digit was read. *)
Fixpoint read_hex (acc : option Z) (s : string) : option Z :=
  match s with
  | EmptyString => acc
  | String c r =>
      match SpecColorUtils.hex_value c with
      | Some v =>
          read_hex (Some (16 * match acc with Some a => a | None => 0 end + v)) r
      | None => acc
      end
  end.

(** [parseInt(s)] with no radix: as [parseInt(s, 10)], except that a numeral
    that opens with [0x] or [0X] after the sign is read in base 16. *)
Definition parseIntAuto (s : string) : JS.value :=
  let '(neg, rest) := JS.read_sign (JS.trimStart s) in
  match rest with
  | String "0" (String x r) =>
      if Ascii.eqb x "x" || Ascii.eqb x "X" then
        match read_hex None r with
        | Some n => JS.Num (if neg then - n else n)
        | None => JS.NaN
        end
      else JS.parseInt s
  | _ => JS.parseInt s
  end.

(** [parseInt(parts[i])]: a missing element converts to the text
    [undefined], which has no digit. *)
Definition parseIntAt (parts : list string) (i : nat) : JS.value :=
  match nth_error parts i with
  | Some part => parseIntAuto part
  | None => JS.NaN
  end.

Section Harmony.

Context {CU : ColorUtils}.

(** The body of [generateHarmonyColors()] from the point where the three
    components [h], [s], [l] of the drawn colour have been parsed: the state
    that is handed to [set]. *)
Definition harmonyState (h s l : JS.value) (state : ThemeState) : ThemeState :=
  let currentBorderRadius := borderRadius state in
  (* light mode *)
  let primaryH := h in
  let primaryS := JS.Math_min (s + 20) 85 in
  let primaryL := JS.Math_max (JS.Math_min l 60) 45 in
  let primaryHSLValue := hslString primaryH primaryS primaryL in
  let secondaryH := primaryH in
  let secondaryS := JS.Math_max (JS.Math_min (primaryS - 60) 25) 5 in
  let secondaryL := JS.Math_min (primaryL + 40) 96 in
  let secondaryHSLValue := hslString secondaryH secondaryS secondaryL in
  let accentH := primaryH in
  let accentS := JS.Math_max (JS.Math_min (primaryS - 30) 55) 30 in
  let accentL := JS.Math_min (primaryL + 30) 88 in
  let accentHSLValue := hslString accentH accentS accentL in
  let bgHSLValue := "0 0% 100%" in
  let fgHSLValue := hslString primaryH 10 4 in
  (* dark mode *)
  let darkPrimaryH := primaryH in
  let darkPrimaryS := JS.Math_max (primaryS - 10) 60 in
  let darkPrimaryL := JS.Math_min (primaryL + 5) 60 in
  let darkPrimaryHSLValue := hslString darkPrimaryH darkPrimaryS darkPrimaryL in
  let darkSecondaryH := secondaryH in
  let darkSecondaryS := JS.Math_max secondaryS 10 in
  let darkSecondaryL := JS.Math_max (JS.Math_min (secondaryL - 75) 25) 15 in
  let darkSecondaryHSLValue :=
    hslString darkSecondaryH darkSecondaryS darkSecondaryL in
  let darkAccentH := accentH in
  let darkAccentS := accentS in
  let darkAccentL := JS.Math_max (accentL - 50) 25 in
  let darkAccentHSLValue := hslString darkAccentH darkAccentS darkAccentL in
  let darkBgH := primaryH in
  let darkBgS := JS.Math_max (JS.Math_min (primaryS - 60) 40) 30 in
  let darkBgL := JS.Math_max (JS.Math_min (primaryL - 35) 10) 8 in
  let darkBgHSLValue := hslString darkBgH darkBgS darkBgL in
  let darkFgHSLValue := hslString primaryH 10 95 in
  let lightColors := colors state in
  let darkColors := darkColors state in
  (* chart colours *)
  let lightChartColors :=
    generateChartColors primaryHSLValue secondaryHSLValue accentHSLValue false in
  let darkChartColors :=
    generateChartColors darkPrimaryHSLValue darkSecondaryHSLValue
                        darkAccentHSLValue true in
  (* light palette *)
  let lightColors := lightColors.[background := bgHSLValue] in
  let lightColors := lightColors.[foreground := fgHSLValue] in
  let lightColors := lightColors.[primary := primaryHSLValue] in
  let lightColors := lightColors.[secondary := secondaryHSLValue] in
  let lightColors := lightColors.[accent := accentHSLValue] in
  let lightColors := lightColors.[card := bgHSLValue] in
  let lightColors := lightColors.[popover := bgHSLValue] in
  let lightColors := lightColors.[muted := secondaryHSLValue] in
  let lightColors :=
    lightColors.[primaryForeground := contrasting primaryHSLValue] in
  let lightColors :=
    lightColors.[secondaryForeground := contrasting secondaryHSLValue] in
  let lightColors :=
    lightColors.[accentForeground := contrasting accentHSLValue] in
  let lightColors := lightColors.[cardForeground := fgHSLValue] in
  let lightColors := lightColors.[popoverForeground := fgHSLValue] in
  let lightColors := lightColors.[mutedForeground := hslString secondaryH 30 45] in
  let lightColors :=
    lightColors.[border := hslString secondaryH secondaryS
                             (JS.Math_max (secondaryL - 10) 80)] in
  let lightColors := lightColors.[input := lightColors border] in
  let lightColors := lightColors.[ring := primaryHSLValue] in
  let lightColors := lightColors.[sidebar := secondaryHSLValue] in
  let lightColors :=
    lightColors.[sidebarForeground := contrasting secondaryHSLValue] in
  let lightColors := lightColors.[sidebarPrimary := primaryHSLValue] in
  let lightColors :=
    lightColors.[sidebarPrimaryForeground := contrasting primaryHSLValue] in
  let lightColors := lightColors.[sidebarAccent := accentHSLValue] in
  let lightColors :=
    lightColors.[sidebarAccentForeground := contrasting accentHSLValue] in
  let lightColors := lightColors.[sidebarBorder := lightColors border] in
  let lightColors := lightColors.[sidebarRing := primaryHSLValue] in
  let lightColors := assign_charts lightChartColors lightColors in
  (* dark palette *)
  let darkColors := darkColors.[background := darkBgHSLValue] in
  let darkColors := darkColors.[foreground := darkFgHSLValue] in
  let darkColors := darkColors.[primary := darkPrimaryHSLValue] in
  let darkColors := darkColors.[secondary := darkSecondaryHSLValue] in
  let darkColors := darkColors.[accent := darkAccentHSLValue] in
  let darkColors :=
    darkColors.[card := hslString darkBgH darkBgS (JS.Math_min (darkBgL + 4) 20)] in
  let darkColors := darkColors.[popover := darkColors card] in
  let darkColors := darkColors.[muted := darkSecondaryHSLValue] in
  let darkColors :=
    darkColors.[primaryForeground := contrasting darkPrimaryHSLValue] in
  let darkColors :=
    darkColors.[secondaryForeground := contrasting darkSecondaryHSLValue] in
  let darkColors :=
    darkColors.[accentForeground := contrasting darkAccentHSLValue] in
  let darkColors := darkColors.[cardForeground := darkFgHSLValue] in
  let darkColors := darkColors.[popoverForeground := darkFgHSLValue] in
  let darkColors :=
    darkColors.[mutedForeground := hslString darkSecondaryH 15 65] in
  let darkColors :=
    darkColors.[border := hslString darkSecondaryH (darkSecondaryS + 5)
                            (JS.Math_min (darkSecondaryL + 10) 30)] in
  let darkColors := darkColors.[input := darkColors border] in
  let darkColors := darkColors.[ring := darkPrimaryHSLValue] in
  let darkBgParts := JS.split " " darkBgHSLValue in
  let darkBgSaturation := parseIntAt darkBgParts 1 in
  let darkBgLightness := parseIntAt darkBgParts 2 in
  let darkColors :=
    darkColors.[sidebar := hslString darkBgH darkBgSaturation
                             (JS.Math_min (darkBgLightness + 12) 25)] in
  let darkColors := darkColors.[sidebarForeground := darkFgHSLValue] in
  let darkColors := darkColors.[sidebarPrimary := darkPrimaryHSLValue] in
  let darkColors :=
    darkColors.[sidebarPrimaryForeground := contrasting darkPrimaryHSLValue] in
  let darkColors := darkColors.[sidebarAccent := darkAccentHSLValue] in
  let darkColors :=
    darkColors.[sidebarAccentForeground := contrasting darkAccentHSLValue] in
  let darkColors := darkColors.[sidebarBorder := darkColors border] in
  let darkColors := darkColors.[sidebarRing := darkPrimaryHSLValue] in
  let darkColors := assign_charts darkChartColors darkColors in
  {| colors := lightColors; darkColors := darkColors;
     fonts := fonts state; borderRadius := currentBorderRadius;
     isDarkMode := isDarkMode state;
     selectedHarmony := selectedHarmony state;
     exportMenuOpen := exportMenuOpen state;
     shareMenuOpen := shareMenuOpen state;
     predefinedThemes := predefinedThemes state;
     currentTheme := currentTheme state |}.

(** [generateHarmonyColors()], as a function of the colour that
    [getRandomHexColor()] drew and of the state [get()] returns.  As in
    [updateThemeColor], an exception of [hexToHSL] or a method call on a
    missing piece ends the action before [set] is reached. *)
Definition generateHarmonyColors (primaryHex : string) (state : ThemeState)
    : result ThemeState :=
  primaryHSL <- hexToHSL primaryHex ;;
  match JS.split " " primaryHSL with
  | hStr :: sStr :: lStr :: _ =>
      let h := JS.parseInt hStr in
      let s := JS.parseInt (JS.remove_first "%" sStr) in
      let l := JS.parseInt (JS.remove_first "%" lStr) in
      Ok (harmonyState h s l state)
  | _ => Throw TypeError
  end.

End Harmony.

(** [themes.findIndex((t) => t.name === name)]; [None] stands for -1. *)
Fixpoint findIndex (name : string) (themes : list ThemePreset.t) : option nat :=
  match themes with
  | [] => None
  | t :: rest =>
      if String.eqb (ThemePreset.name t) name then Some O
      else option_map S (findIndex name rest)
  end.

(** [themes[i] = theme] on a copy of the array, for an index inside it. *)
Fixpoint replaceAt (i : nat) (theme : ThemePreset.t) (themes : list ThemePreset.t)
    : list ThemePreset.t :=
  match themes, i with
  | [], _ => []
  | _ :: rest, O => theme :: rest
  | t :: rest, S j => t :: replaceAt j theme rest
  end.

(** [addCustomTheme(theme)] *)
Definition addCustomTheme (theme : ThemePreset.t) (state : ThemeState) : ThemeState :=
  let existingIndex := findIndex (ThemePreset.name theme) (predefinedThemes state) in
  let newThemes :=
    match existingIndex with
    | Some i => replaceAt i theme (predefinedThemes state)
    | None => (predefinedThemes state ++ [theme])%list
    end in
  {| colors := colors state; darkColors := darkColors state;
     fonts := fonts state; borderRadius := borderRadius state;
     isDarkMode := isDarkMode state;
     selectedHarmony := selectedHarmony state;
     exportMenuOpen := exportMenuOpen state;
     shareMenuOpen := shareMenuOpen state;
     predefinedThemes := newThemes;
     currentTheme := currentTheme state |}.

(** The lookup [setCurrentTheme] performs. *)
Definition findTheme (name : string) (themes : list ThemePreset.t) : option ThemePreset.t :=
  find (fun t => String.eqb (ThemePreset.name t) name) themes.

(** [getRegistryCommand(packageManager, url)] of the export menu. *)
Definition getRegistryCommand (packageManager url : string) : string :=
  if String.eqb packageManager "pnpm" then "pnpm dlx shadcn@canary add " ++ url
  else if String.eqb packageManager "npm" then "npx shadcn@canary add " ++ url
  else if String.eqb packageManager "bun" then "bunx --bun shadcn@canary add " ++ url
  else "pnpm dlx shadcn@canary add " ++ url.

(** The default theme after its own preset has been selected, with the
    colour utilities of [SpecColorUtils]. *)
Definition defaultPresetApplied : ThemeState :=
  match setCurrentTheme (CU := specColorUtils) "Default" defaultTheme with
  | Ok state' => state'
  | Throw _ => defaultTheme
  end.

(** A custom preset that carries fonts and a radius but no colours. *)
Definition plainPreset : ThemePreset.t :=
  {| ThemePreset.name := "Plain";
     ThemePreset.colors := None;
     ThemePreset.fonts := Some (Some "Inter", None);
     ThemePreset.borderRadius := Some 1%Q |}.

(** The value of the property [k] of an object, if it has one. *)
Fixpoint get_field (k : string) (fields : list (string * json)) : option json :=
  match fields with
  | [] => None
  | (k', v) :: rest => if String.eqb k' k then Some v else get_field k rest
  end.

(** Neither a percent sign nor white space. *)
Definition is_compact_char (c : ascii) : bool :=
  negb (Ascii.eqb c "%") && negb (JS.is_space c).

(* ================================================================== *)
(** ** Facts about the JavaScript fragment *)
(* ================================================================== *)

Module JSFacts.
Import JS.

Lemma digits_of_uint (u : uint) :
  string_forall is_digit (NilEmpty.string_of_uint u) = true.
Proof. induction u; simpl; auto. Qed.

Lemma read_digits_of_uint (u : uint) (rest : string) :
  match rest with
  | String c _ => is_digit c = false
  | EmptyString => True
  end ->
  read_digits (NilEmpty.string_of_uint u ++ rest) = (u, rest).
Proof.
  intros Hrest.
  induction u; simpl; try (rewrite IHu; reflexivity).
  destruct rest as [|c r]; [reflexivity|].
  simpl. unfold is_digit in Hrest.
  destruct (digit_of c); [discriminate | reflexivity].
Qed.

Lemma to_uint_nonnil (n : N) : N.to_uint n <> Nil.
Proof.
  destruct n; simpl; [discriminate | apply Unsigned.to_uint_nonnil].
Qed.

Lemma showN_digits (n : N) : string_forall is_digit (showN n) = true.
Proof. apply digits_of_uint. Qed.

(** A printed natural starts with a digit. *)
Lemma showN_head (n : N) :
  exists c r, showN n = String c r /\ is_digit c = true.
Proof.
  pose proof (showN_digits n) as Hd.
  pose proof (to_uint_nonnil n) as Hn.
  unfold showN in *.
  destruct (N.to_uint n); try contradiction; simpl in *;
    eexists; eexists; split; try reflexivity; reflexivity.
Qed.

Lemma showZ_numeral (z : Z) : string_forall is_numeral_char (showZ z) = true.
Proof.
  assert (H : forall s, string_forall is_digit s = true ->
                        string_forall is_numeral_char s = true).
  { induction s as [|c r IH]; simpl; [reflexivity|].
    intros Hs. apply andb_true_iff in Hs as [Hc Hr].
    rewrite (IH Hr). unfold is_numeral_char. rewrite Hc. reflexivity. }
  unfold showZ. destruct (z <? 0); simpl; [|apply H, showN_digits].
  rewrite (H _ (showN_digits _)). reflexivity.
Qed.

Lemma number_of_digits_to_uint (neg : bool) (n : N) :
  number_of_digits neg (N.to_uint n)
  = Num (if neg then - Z.of_N n else Z.of_N n).
Proof.
  pose proof (to_uint_nonnil n) as Hn.
  pose proof (DecimalN.Unsigned.of_to n) as Hu.
  unfold number_of_digits.
  destruct (N.to_uint n); try contradiction; cbv zeta; rewrite Hu; reflexivity.
Qed.

Lemma digit_not_space (c : ascii) : is_digit c = true -> is_space c = false.
Proof.
  destruct c as [[] [] [] [] [] [] [] []]; try discriminate; reflexivity.
Qed.

Lemma digit_not_sign (c : ascii) (r : string) :
  is_digit c = true -> read_sign (String c r) = (false, String c r).
Proof.
  destruct c as [[] [] [] [] [] [] [] []]; try discriminate; reflexivity.
Qed.

(** Parsing undoes printing, whatever non-digit text follows the numeral. *)
Lemma parseInt_showZ_app (z : Z) (rest : string) :
  match rest with
  | String c _ => is_digit c = false
  | EmptyString => True
  end ->
  parseInt (showZ z ++ rest) = Num z.
Proof.
  intros Hrest. unfold parseInt, showZ.
  destruct (Z.ltb_spec z 0) as [Hneg | Hpos].
  - cbn [append].
    change (read_sign (trimStart (String "-" (showN (Z.abs_N z) ++ rest))))
      with (true, showN (Z.abs_N z) ++ rest).
    cbv iota beta. unfold showN.
    rewrite read_digits_of_uint by assumption. cbn [fst].
    rewrite number_of_digits_to_uint, N2Z.inj_abs_N.
    f_equal. lia.
  - destruct (showN_head (Z.abs_N z)) as (c & r & Heq & Hc).
    rewrite Heq. cbn [append trimStart].
    rewrite (digit_not_space _ Hc), (digit_not_sign _ _ Hc).
    change (String c (r ++ rest)) with (String c r ++ rest).
    rewrite <- Heq. unfold showN.
    rewrite read_digits_of_uint by assumption. cbn [fst].
    rewrite number_of_digits_to_uint, N2Z.inj_abs_N.
    f_equal. lia.
Qed.

Lemma parseInt_showZ (z : Z) : parseInt (showZ z) = Num z.
Proof.
  rewrite <- (parseInt_showZ_app z EmptyString I).
  f_equal. symmetry. clear. induction (showZ z); simpl; congruence.
Qed.

(** A piece without the separator is split off whole. *)
Lemma split_app (sep : ascii) (s rest : string) :
  string_forall (fun c => negb (Ascii.eqb c sep)) s = true ->
  split sep (s ++ String sep rest) = s :: split sep rest.
Proof.
  induction s as [|c r IH]; simpl; intros Hs.
  - rewrite Ascii.eqb_refl. reflexivity.
  - apply andb_true_iff in Hs as [Hc Hr].
    apply negb_true_iff in Hc. rewrite Hc, (IH Hr). reflexivity.
Qed.

Lemma split_none (sep : ascii) (s : string) :
  string_forall (fun c => negb (Ascii.eqb c sep)) s = true ->
  split sep s = [s].
Proof.
  induction s as [|c r IH]; simpl; intros Hs; [reflexivity|].
  apply andb_true_iff in Hs as [Hc Hr].
  apply negb_true_iff in Hc. rewrite Hc, (IH Hr). reflexivity.
Qed.

Lemma remove_first_app (c : ascii) (s rest : string) :
  string_forall (fun d => negb (Ascii.eqb d c)) s = true ->
  remove_first c (s ++ String c rest) = s ++ rest.
Proof.
  induction s as [|d r IH]; simpl; intros Hs.
  - rewrite Ascii.eqb_refl. reflexivity.
  - apply andb_true_iff in Hs as [Hd Hr].
    apply negb_true_iff in Hd. rewrite Hd, (IH Hr). reflexivity.
Qed.

Lemma string_forall_impl (p q : ascii -> bool) (s : string) :
  (forall c, p c = true -> q c = true) ->
  string_forall p s = true -> string_forall q s = true.
Proof.
  intros Hpq. induction s as [|c r IH]; simpl; [reflexivity|].
  intros Hs. apply andb_true_iff in Hs as [Hc Hr].
  rewrite (Hpq _ Hc), (IH Hr). reflexivity.
Qed.

Lemma string_forall_app (p : ascii -> bool) (s t : string) :
  string_forall p (s ++ t) = string_forall p s && string_forall p t.
Proof.
  induction s as [|c r IH]; simpl; [reflexivity|].
  rewrite IH, andb_assoc. reflexivity.
Qed.

Lemma numeral_char_not (c d : ascii) :
  is_numeral_char d = false ->
  is_numeral_char c = true -> negb (Ascii.eqb c d) = true.
Proof.
  intros Hd Hc. apply negb_true_iff. apply Ascii.eqb_neq.
  intros ->. congruence.
Qed.

Lemma showZ_no_space (z : Z) :
  string_forall (fun c => negb (Ascii.eqb c " ")) (showZ z) = true.
Proof.
  apply string_forall_impl with (p := is_numeral_char).
  - intros c Hc. apply (numeral_char_not c " "); [reflexivity | assumption].
  - apply showZ_numeral.
Qed.

Lemma showZ_no_percent (z : Z) :
  string_forall (fun c => negb (Ascii.eqb c "%")) (showZ z) = true.
Proof.
  apply string_forall_impl with (p := is_numeral_char).
  - intros c Hc. apply (numeral_char_not c "%"); [reflexivity | assumption].
  - apply showZ_numeral.
Qed.

End JSFacts.

Lemma append_nil_r (s : string) : s ++ EmptyString = s.
Proof. induction s; simpl; congruence. Qed.

Lemma append_assoc (s t u : string) : (s ++ t) ++ u = s ++ t ++ u.
Proof. induction s; simpl; congruence. Qed.

(** The pieces of a printed triple. *)
Lemma split_hslString (h s l : Z) :
  JS.split " " (hslString h s l)
  = [JS.showZ h; JS.showZ s ++ "%"; JS.showZ l ++ "%"].
Proof.
  unfold hslString. simpl JS.toString.
  change (JS.showZ h ++ " " ++ JS.showZ s ++ "% " ++ JS.showZ l ++ "%")
    with (JS.showZ h ++ String " " (JS.showZ s ++ "% " ++ JS.showZ l ++ "%")).
  rewrite JSFacts.split_app by apply JSFacts.showZ_no_space.
  replace (JS.showZ s ++ "% " ++ JS.showZ l ++ "%")
    with ((JS.showZ s ++ "%") ++ String " " (JS.showZ l ++ "%")).
  2:{ rewrite append_assoc. reflexivity. }
  rewrite JSFacts.split_app.
  2:{ rewrite JSFacts.string_forall_app, JSFacts.showZ_no_space. reflexivity. }
  rewrite JSFacts.split_none.
  2:{ rewrite JSFacts.string_forall_app, JSFacts.showZ_no_space. reflexivity. }
  reflexivity.
Qed.

Lemma strip_percent (z : Z) :
  JS.remove_first "%" (JS.showZ z ++ "%") = JS.showZ z.
Proof.
  change (JS.showZ z ++ "%") with (JS.showZ z ++ String "%" EmptyString).
  rewrite JSFacts.remove_first_app by apply JSFacts.showZ_no_percent.
  apply append_nil_r.
Qed.

Lemma strip_percent_none (z : Z) :
  JS.remove_first "%" (JS.showZ z) = JS.showZ z.
Proof.
  pose proof (JSFacts.showZ_no_percent z) as H.
  induction (JS.showZ z) as [|c r IH]; simpl in *; [reflexivity|].
  apply andb_true_iff in H as [Hc Hr]. apply negb_true_iff in Hc.
  rewrite Hc, (IH Hr). reflexivity.
Qed.

(** Reading back the components of a printed triple. *)
Lemma parseComponents_hslString (h s l : Z) :
  parseComponents (hslString h s l) = [JS.Num h; JS.Num s; JS.Num l].
Proof.
  unfold parseComponents. rewrite split_hslString. simpl map.
  unfold JS.parseFloat.
  rewrite strip_percent_none, !strip_percent, !JSFacts.parseInt_showZ.
  reflexivity.
Qed.

Lemma hslString_inj (h s l h' s' l' : Z) :
  hslString h s l = hslString h' s' l' -> h = h' /\ s = s' /\ l = l'.
Proof.
  intros Heq.
  pose proof (parseComponents_hslString h s l) as H1.
  rewrite Heq, parseComponents_hslString in H1.
  injection H1 as -> -> ->. repeat split.
Qed.

Lemma lightness_hslString (h s l : Z) : lightness (hslString h s l) = JS.Num l.
Proof. unfold lightness. rewrite parseComponents_hslString. reflexivity. Qed.

(** The dedicated dark branch reads the colour back with [parseInt] on the
    pieces; on a printed triple that gives the components back. *)
Lemma parseInt_pieces (z : Z) :
  JS.parseInt (JS.showZ z) = JS.Num z /\
  JS.parseInt (JS.remove_first "%" (JS.showZ z ++ "%")) = JS.Num z.
Proof.
  rewrite strip_percent. split; apply JSFacts.parseInt_showZ.
Qed.

(* ================================================================== *)
(** ** The model of ./color-utils meets its contract *)
(* ================================================================== *)

Module SpecColorUtilsFacts.
Import SpecColorUtils.

Lemma hex_value_range (c : ascii) (v : Z) :
  hex_value c = Some v -> 0 <= v <= 15.
Proof.
  unfold hex_value.
  set (n := Z.of_N (N_of_ascii c)).
  destruct (Z.leb_spec 48 n), (Z.leb_spec n 57); cbn [andb];
    try (intros [= <-]; lia);
  destruct (Z.leb_spec 97 n), (Z.leb_spec n 102); cbn [andb];
    try (intros [= <-]; lia);
  destruct (Z.leb_spec 65 n), (Z.leb_spec n 70); cbn [andb];
    try (intros [= <-]; lia); discriminate.
Qed.

Lemma hex_values_range (s : string) (vs : list Z) :
  hex_values s = Some vs -> Forall (fun v => 0 <= v <= 15) vs.
Proof.
  revert vs. induction s as [|c r IH]; cbn [hex_values]; intros vs.
  - intros [= <-]. constructor.
  - destruct (hex_value c) as [v|] eqn:Hv; [|discriminate].
    destruct (hex_values r) as [ws|]; [|discriminate].
    intros [= <-]. constructor; [eapply hex_value_range; eassumption | auto].
Qed.

Lemma parseHex_range (hex : string) (r g b : Z) :
  parseHex hex = Some (r, g, b) ->
  0 <= r <= 255 /\ 0 <= g <= 255 /\ 0 <= b <= 255.
Proof.
  unfold parseHex.
  destruct (hex_values _) as [vs|] eqn:Hvs; [|discriminate].
  apply hex_values_range in Hvs.
  destruct vs as [|a [|b0 [|c [|d [|e [|f [|x vs]]]]]]]; try discriminate;
    intros Heq; injection Heq as Hr Hg Hb;
    repeat (apply Forall_cons_iff in Hvs; destruct Hvs as [? Hvs]);
    unfold channel in *; lia.
Qed.

Lemma round_div_bounds (n d lo hi : Z) :
  0 < d -> lo * d <= n <= hi * d -> lo <= round_div n d <= hi.
Proof.
  intros Hd Hn. unfold round_div. split.
  - apply Z.div_le_lower_bound; lia.
  - apply Z.lt_succ_r. apply Z.div_lt_upper_bound; lia.
Qed.

Lemma rgbToHSL_range (r g b : Z) :
  0 <= r <= 255 -> 0 <= g <= 255 -> 0 <= b <= 255 ->
  let '(h, s, l) := rgbToHSL (r, g, b) in
  0 <= h <= 360 /\ 0 <= s <= 100 /\ 0 <= l <= 100.
Proof.
  intros Hr Hg Hb. unfold rgbToHSL.
  set (mx := Z.max r (Z.max g b)). set (mn := Z.min r (Z.min g b)).
  assert (Hmx : mn <= mx /\ 0 <= mn /\ mx <= 255 /\
                mn <= r <= mx /\ mn <= g <= mx /\ mn <= b <= mx) by lia.
  assert (Hl : 0 <= round_div (100 * (mx + mn)) 510 <= 100)
    by (apply round_div_bounds; lia).
  destruct (Z.eqb_spec (mx - mn) 0) as [Hd | Hd]; [lia|].
  split; [|split; [|exact Hl]].
  - destruct (Z.eqb_spec mx r); [|destruct (Z.eqb_spec mx g)].
    + destruct (Z.ltb_spec g b); apply round_div_bounds; lia.
    + apply round_div_bounds; lia.
    + apply round_div_bounds; lia.
  - destruct (Z.ltb_spec 255 (mx + mn)); apply round_div_bounds; lia.
Qed.

(** Every hex string the conversion accepts yields a printed triple of
    integers in the ranges of a colour value. *)
Lemma hexToHSL_valid (hex hsl : string) :
  hexToHSL hex = Ok hsl ->
  exists h s l : Z,
    hsl = hslString h s l /\
    0 <= h <= 360 /\ 0 <= s <= 100 /\ 0 <= l <= 100.
Proof.
  unfold hexToHSL.
  destruct (parseHex hex) as [[[r g] b]|] eqn:Hp; [|discriminate].
  apply parseHex_range in Hp. destruct Hp as (Hr & Hg & Hb).
  pose proof (rgbToHSL_range r g b Hr Hg Hb) as Hrange.
  destruct (rgbToHSL (r, g, b)) as [[h s] l].
  intros [= <-]. exists h, s, l. split; [reflexivity | exact Hrange].
Qed.

(** The modelled resolver meets the contrast guarantee: a light foreground
    (lightness 95) below 45, a dark one (lightness 10) from 50 upwards, on
    the hue of the background. *)
Lemma calculateContrastingColor_guarantee (h s l : Z) :
  let fg := calculateContrastingColor (hslString h s l) None in
  (l < 45 -> fg = hslString h 10 95 /\ lightness fg = JS.Num 95) /\
  (50 <= l -> fg = hslString h 10 10 /\ lightness fg = JS.Num 10).
Proof.
  cbv zeta. unfold calculateContrastingColor.
  rewrite parseComponents_hslString.
  cbn [JS.nth_value nth JS.lt].
  split; intros Hl.
  - destruct (Z.ltb_spec l 50); [|lia].
    split; [reflexivity | apply lightness_hslString].
  - destruct (Z.ltb_spec l 50); [lia|].
    split; [reflexivity | apply lightness_hslString].
Qed.

End SpecColorUtilsFacts.

(* ================================================================== *)
(** ** The seed propagation engine: [updateThemeColor] *)
(* ================================================================== *)

Section StoreFacts.

Context {CU : ColorUtils}.

(** What the dedicated dark-mode branch of a primary edit writes, role by
    role, for a new primary printed from [h], [s], [l]. *)
Lemma updateThemeColor_primary_dark (state : ThemeState) (hex : string) (h s l : Z) :
  isDarkMode state = true ->
  hexToHSL hex = Ok (hslString h s l) ->
  updateThemeColor primary hex state =
  Ok (with_palettes state (colors state)
        (let hslValue := hslString h s l in
         let fg := if l <? 40 then "0 0% 100%" else hslString h 10 95 in
         let sS := Z.max (Z.min (s - 40) 30) 7 in
         let sL := Z.max (Z.min (l - 20) 30) 15 in
         let sec := hslString h sS sL in
         let aH := Z.rem (h + 30) 360 in
         let acc := hslString aH (Z.min (s + 5) 80) (Z.min (l + 15) 65) in
         let bd := hslString h (sS + 5)%Z (Z.min (sL + 10) 30) in
         (darkColors state)
           .[primary := hslValue].[ring := hslValue]
           .[sidebarPrimary := hslValue].[chart1 := hslValue]
           .[primaryForeground := fg].[sidebarPrimaryForeground := fg]
           .[secondary := sec].[muted := sec]
           .[secondaryForeground := hslString h 10 95]
           .[mutedForeground := hslString h 15 65]
           .[accent := acc].[accentForeground := hslString aH 50 10]
           .[sidebarAccent := acc].[sidebarAccentForeground := hslString aH 50 10]
           .[border := bd].[input := bd].[sidebarBorder := bd]
           .[chart1 := hslValue]
           .[chart2 := hslString h (Z.min (s + 5) 90) (Z.min (l + 15) 75)]
           .[chart3 := hslString h (Z.min (s + 10) 95) (Z.min (l + 25) 85)]
           .[chart4 := hslString h (Z.max (s - 10) 40) (Z.max (l - 15) 25)]
           .[chart5 := hslString h (Z.max (s - 20) 30) (Z.max (l - 25) 15)])).
Proof.
  intros Hdark Hhex. unfold updateThemeColor.
  rewrite Hhex. cbn [bind]. rewrite Hdark.
  cbn [ThemeColorKey_beq andb].
  rewrite split_hslString.
  destruct (parseInt_pieces h) as [-> _].
  destruct (parseInt_pieces s) as [_ ->].
  destruct (parseInt_pieces l) as [_ ->].
  reflexivity.
Qed.

(** The dedicated dark branch never throws on a printed triple, and it
    leaves the light palette alone. *)
Lemma updateThemeColor_primary_dark_light_untouched
    (state : ThemeState) (hex : string) (h s l : Z) :
  isDarkMode state = true ->
  hexToHSL hex = Ok (hslString h s l) ->
  exists state',
    updateThemeColor primary hex state = Ok state' /\
    colors state' = colors state.
Proof.
  intros Hdark Hhex.
  eexists. split; [apply updateThemeColor_primary_dark; eassumption|].
  reflexivity.
Qed.

(** An edit whose hex string the conversion rejects changes nothing: the
    exception leaves [set] uncalled. *)
Lemma updateThemeColor_malformed (key : ThemeColorKey) (hex : string)
    (state : ThemeState) (e : error) :
  hexToHSL hex = Throw e -> updateThemeColor key hex state = Throw e.
Proof.
  intros Hhex. unfold updateThemeColor. rewrite Hhex. reflexivity.
Qed.

(** C1.  With dark mode active, an edit of [primary] with a valid hex value
    overwrites [darkColors.secondary] and [darkColors.accent] whatever they
    held before: for [(h, s, l)] the HSL of the new primary, the secondary
    becomes hue [h], saturation [s - 40] clamped into [7, 30], lightness
    [l - 20] clamped into [15, 30]; the accent becomes hue
    [(h + 30) mod 360], saturation [min (s + 5) 80] and lightness
    [min (l + 15) 65], both bounded. *)
Theorem primary_edit_in_dark_mode_resynthesises
    (state : ThemeState) (hex : string) (h s l : Z) :
  isDarkMode state = true ->
  hexToHSL hex = Ok (hslString h s l) ->
  0 <= h -> 0 <= s -> 0 <= l ->
  exists state',
    updateThemeColor primary hex state = Ok state' /\
    darkColors state' secondary
    = hslString h (Z.max (Z.min (s - 40) 30) 7) (Z.max (Z.min (l - 20) 30) 15) /\
    7 <= Z.max (Z.min (s - 40) 30) 7 <= 30 /\
    15 <= Z.max (Z.min (l - 20) 30) 15 <= 30 /\
    darkColors state' accent
    = hslString ((h + 30) mod 360)%Z (Z.min (s + 5) 80) (Z.min (l + 15) 65) /\
    0 <= (h + 30) mod 360 < 360 /\
    5 <= Z.min (s + 5) 80 <= 80 /\
    15 <= Z.min (l + 15) 65 <= 65.
Proof.
  intros Hdark Hhex Hh Hs Hl.
  eexists. split; [apply updateThemeColor_primary_dark; eassumption|].
  cbn [darkColors with_palettes]. unfold assign. cbn [ThemeColorKey_beq].
  rewrite Z.rem_mod_nonneg by lia.
  pose proof (Z.mod_pos_bound (h + 30) 360 eq_refl).
  repeat split; try reflexivity; lia.
Qed.

(** C2.  With dark mode inactive, an edit of [primary] with a valid hex
    value succeeds and leaves [colors.secondary] and [colors.accent] of the
    light palette at their previous values. *)
Theorem primary_edit_in_light_mode_keeps_secondary_and_accent
    (state : ThemeState) (hex hsl : string) :
  isDarkMode state = false ->
  hexToHSL hex = Ok hsl ->
  exists state',
    updateThemeColor primary hex state = Ok state' /\
    colors state' secondary = colors state secondary /\
    colors state' accent = colors state accent.
Proof.
  intros Hlight Hhex. unfold updateThemeColor.
  rewrite Hhex. cbn [bind]. rewrite Hlight.
  cbn [ThemeColorKey_beq andb negb].
  eexists. split; [reflexivity|]. split; reflexivity.
Qed.

(** The inline chart series of the dedicated dark branch and the dark-mode
    generator applied to the new primary agree exactly when the new
    primary's lightness lies in [45, 55]. *)
Lemma dark_inline_charts_agree_iff (state : ThemeState) (hex : string) (h s l : Z) :
  isDarkMode state = true ->
  hexToHSL hex = Ok (hslString h s l) ->
  exists state',
    updateThemeColor primary hex state = Ok state' /\
    let g := generateChartColors (darkColors state' primary)
               (darkColors state' secondary) (darkColors state' accent) true in
    (darkColors state' chart2 = Charts.chart2 g /\
     darkColors state' chart3 = Charts.chart3 g /\
     darkColors state' chart4 = Charts.chart4 g /\
     darkColors state' chart5 = Charts.chart5 g)
    <-> 45 <= l <= 55.
Proof.
  intros Hdark Hhex.
  eexists. split; [apply updateThemeColor_primary_dark; eassumption|].
  cbn [darkColors with_palettes]. unfold assign. cbn [ThemeColorKey_beq].
  cbv zeta. unfold generateChartColors.
  rewrite parseComponents_hslString.
  cbn [JS.nth_value nth JS.add JS.sub JS.Math_min JS.Math_max
       Charts.chart2 Charts.chart3 Charts.chart4 Charts.chart5].
  split.
  - intros (H2 & H3 & H4 & H5).
    apply hslString_inj in H2, H4. lia.
  - intros Hl. repeat split; f_equal; f_equal; lia.
Qed.

(** The foreground the dedicated dark branch puts on a new primary: white
    below lightness 40, a near-white tint of the hue from 40 upwards; its
    lightness is never below 95. *)
Lemma dark_primary_foreground (state : ThemeState) (hex : string) (h s l : Z) :
  isDarkMode state = true ->
  hexToHSL hex = Ok (hslString h s l) ->
  exists state',
    updateThemeColor primary hex state = Ok state' /\
    darkColors state' primary = hslString h s l /\
    darkColors state' primaryForeground
    = (if l <? 40 then "0 0% 100%" else hslString h 10 95) /\
    lightness (darkColors state' primaryForeground)
    = JS.Num (if l <? 40 then 100 else 95).
Proof.
  intros Hdark Hhex.
  eexists. split; [apply updateThemeColor_primary_dark; eassumption|].
  cbn [darkColors with_palettes]. unfold assign. cbn [ThemeColorKey_beq].
  cbv zeta. repeat split.
  destruct (l <? 40); [reflexivity | apply lightness_hslString].
Qed.

(** The light-mode branch of a primary edit takes the foreground of the new
    primary from the contrast resolver. *)
Lemma light_primary_foreground (state : ThemeState) (hex hsl : string) :
  isDarkMode state = false ->
  hexToHSL hex = Ok hsl ->
  exists state',
    updateThemeColor primary hex state = Ok state' /\
    colors state' primary = hsl /\
    colors state' primaryForeground = calculateContrastingColor hsl None /\
    darkColors state' primary = hsl /\
    darkColors state' primaryForeground = calculateContrastingColor hsl None.
Proof.
  intros Hlight Hhex. unfold updateThemeColor.
  rewrite Hhex. cbn [bind]. rewrite Hlight.
  cbn [ThemeColorKey_beq andb negb].
  eexists. split; [reflexivity|]. repeat split; reflexivity.
Qed.

(** C5, as amended.  With dark mode active, an edit of [background] with a
    valid hex value writes the new value to [background], [card], [popover]
    and [sidebar] of the dark palette and to [background], [card] and
    [popover] of the light palette; every other role of either palette keeps
    its value. *)
Theorem background_edit_in_dark_mode_writes_both_palettes
    (state : ThemeState) (hex hsl : string) :
  isDarkMode state = true ->
  hexToHSL hex = Ok hsl ->
  exists state',
    updateThemeColor background hex state = Ok state' /\
    (forall k, darkColors state' k
               = if is_surface k || ThemeColorKey_beq k sidebar then hsl
                 else darkColors state k) /\
    (forall k, colors state' k
               = if is_surface k then hsl else colors state k).
Proof.
  intros Hdark Hhex. unfold updateThemeColor.
  rewrite Hhex. cbn [bind]. rewrite Hdark.
  cbn [ThemeColorKey_beq andb].
  eexists. split; [reflexivity|].
  split; intros k; destruct k; reflexivity.
Qed.


(** By contrast, the light-mode branch of a secondary edit does transform
    the value it hands to the dark palette. *)
Lemma secondary_edit_in_light_mode_transforms
    (state : ThemeState) (hex : string) (h s l : Z) :
  isDarkMode state = false ->
  hexToHSL hex = Ok (hslString h s l) ->
  exists state',
    updateThemeColor secondary hex state = Ok state' /\
    colors state' secondary = hslString h s l /\
    darkColors state' secondary
    = hslString h (Z.max (s - 20) 10) (Z.max 15 (Z.min 25 (l - 70))).
Proof.
  intros Hlight Hhex. unfold updateThemeColor.
  rewrite Hhex. cbn [bind]. rewrite Hlight.
  cbn [ThemeColorKey_beq andb negb].
  eexists. split; [reflexivity|].
  cbn [colors darkColors with_palettes]. unfold assign_charts, assign.
  cbn [ThemeColorKey_beq].
  rewrite parseComponents_hslString. split; reflexivity.
Qed.

(* ================================================================== *)
(** ** Presets and the colour picker *)
(* ================================================================== *)

Lemma find_preset_none (themeName : string) (themes : list ThemePreset.t) :
  (forall t, In t themes -> ThemePreset.name t <> themeName) ->
  find (fun t => String.eqb (ThemePreset.name t) themeName) themes = None.
Proof.
  induction themes as [|t rest IH]; intros Hno; [reflexivity|].
  cbn [find].
  destruct (String.eqb_spec (ThemePreset.name t) themeName) as [Heq | _].
  - exfalso. apply (Hno t); [left; reflexivity | assumption].
  - apply IH. intros t' Hin. apply Hno. right. assumption.
Qed.

(** C8.  [setCurrentTheme] with a name that no preset of the state carries
    raises nothing and returns the state it was given: palettes, fonts,
    radius, current theme and every other field are the prior ones. *)
Theorem setCurrentTheme_unknown_name_is_noop
    (state : ThemeState) (themeName : string) :
  (forall t, In t (predefinedThemes state) -> ThemePreset.name t <> themeName) ->
  setCurrentTheme themeName state = Ok state.
Proof.
  intros Hno. unfold setCurrentTheme.
  rewrite (find_preset_none _ _ Hno). reflexivity.
Qed.

(** C10.  [getHexColor] answers the constant ["#000000"] for every role that
    is not one of the five seed roles, whatever the palettes hold, and for a
    seed role the hex conversion of that role's value in the active palette
    (the dark one when dark mode is active, the light one otherwise). *)
Theorem getHexColor_seed_or_black (state : ThemeState) (colorKey : ThemeColorKey) :
  getHexColor colorKey state
  = if is_seed colorKey then hslToHex (activeColors state colorKey)
    else Ok "#000000".
Proof.
  unfold getHexColor, activeColors. destruct colorKey; reflexivity.
Qed.

End StoreFacts.

(* ================================================================== *)
(** ** The chart series generator *)
(* ================================================================== *)

(** [chart1] is the primary handed in, for any string at all. *)
Lemma generateChartColors_chart1 (primary secondary accent : string) (isDarkMode : bool) :
  Charts.chart1 (generateChartColors primary secondary accent isDarkMode) = primary.
Proof. unfold generateChartColors. destruct isDarkMode; reflexivity. Qed.

(** The generator ignores its secondary and accent arguments. *)
Lemma generateChartColors_parity (primary s1 a1 s2 a2 : string) (isDarkMode : bool) :
  generateChartColors primary s1 a1 isDarkMode
  = generateChartColors primary s2 a2 isDarkMode.
Proof. reflexivity. Qed.


(** The dark-mode rule table of the generator. *)
Lemma generateChartColors_dark_table (h s l : Z) (secondary accent : string) :
  generateChartColors (hslString h s l) secondary accent true
  = {| Charts.chart1 := hslString h s l;
       Charts.chart2 := hslString h (Z.min (s + 5) 90) (Z.min (l + 15) 70);
       Charts.chart3 := hslString h (Z.min (s + 10) 95) (Z.min (l + 25) 80);
       Charts.chart4 := hslString h (Z.max (s - 10) 40) (Z.max (l - 15) 30);
       Charts.chart5 := hslString h (Z.max (s - 20) 30) (Z.max (l - 25) 20) |}.
Proof.
  unfold generateChartColors. rewrite parseComponents_hslString. reflexivity.
Qed.

(* ================================================================== *)
(** ** The shareable link *)
(* ================================================================== *)

(** Whether the link carries a radius is decided by a comparison with 8. *)
Lemma encodedObject_radius (theme : ThemeState) :
  has_field "r" (encodedObject theme) = negb (Qeq_bool (borderRadius theme) 8).
Proof.
  unfold encodedObject, minimalTheme, spread_if.
  destruct (isDarkMode theme),
           (String.eqb (heading (fonts theme)) "Geist"),
           (String.eqb (body (fonts theme)) "Geist"),
           (Qeq_bool (borderRadius theme) 8); reflexivity.
Qed.

(** The radius of the default theme is not 8. *)
Lemma defaultTheme_radius : Qeq_bool (borderRadius defaultTheme) 8 = false.
Proof. reflexivity. Qed.

(** C9.  The code at the default theme: its radius is the default 0.5, and
    the object the encoder serialises still has the property [r]; the token
    is the base64 text of a JSON object that ends in [,"r":0.5}]. *)
Theorem encodeThemeState_keeps_default_radius :
  Qeq_bool (borderRadius defaultTheme) 0.5 = true /\
  has_field "r" (encodedObject defaultTheme) = true /\
  encodedObject defaultTheme
  = [ ("l", essentialColors defaultLightColors); ("r", Platform.JNum 0.5) ] /\
  encodeThemeState defaultTheme
  = "eyJsIjp7ImJnIjoiMCwwLDEwMCIsImZnIjoiMjkxLDEwLDQiLCJwIjoiMjkxLDgwLDQ1IiwicyI6IjI5MSwzMCw4NSIsImEiOiIyOTEsNTAsNzUiLCJkIjoiMzU3LjE4LDEwMCw0NSJ9LCJyIjowLjV9".
Proof.
  repeat split; vm_compute; reflexivity.
Qed.

(* ================================================================== *)
(** ** The engine at concrete inputs *)
(* ================================================================== *)

(** C4.  The code at two inputs, dark mode active.  A white primary: the
    inline series caps the lightness of chart2 and chart3 at 75 and 85 where
    the dark-mode generator, applied to the same new primary, caps at 70 and
    80.  A black primary: the inline series floors the lightness of chart4
    and chart5 at 25 and 15 where the generator floors at 30 and 20. *)
Theorem dark_primary_edit_chart_series_diverges :
  isDarkMode darkDefaultTheme = true /\
  exists white black,
    updateThemeColor primary "#ffffff" darkDefaultTheme = Ok white /\
    updateThemeColor primary "#000000" darkDefaultTheme = Ok black /\
    darkColors white primary = "0 0% 100%" /\
    darkColors black primary = "0 0% 0%" /\
    darkColors white chart2 = "0 5% 75%" /\
    darkColors white chart3 = "0 10% 85%" /\
    darkColors black chart4 = "0 40% 25%" /\
    darkColors black chart5 = "0 30% 15%" /\
    generateChartColors (darkColors white primary) (darkColors white secondary)
                        (darkColors white accent) true
    = {| Charts.chart1 := "0 0% 100%"; Charts.chart2 := "0 5% 70%";
         Charts.chart3 := "0 10% 80%"; Charts.chart4 := "0 40% 85%";
         Charts.chart5 := "0 30% 75%" |} /\
    generateChartColors (darkColors black primary) (darkColors black secondary)
                        (darkColors black accent) true
    = {| Charts.chart1 := "0 0% 0%"; Charts.chart2 := "0 5% 15%";
         Charts.chart3 := "0 10% 25%"; Charts.chart4 := "0 40% 30%";
         Charts.chart5 := "0 30% 20%" |}.
Proof.
  split; [reflexivity|].
  eexists. eexists.
  split; [vm_compute; reflexivity|].
  split; [vm_compute; reflexivity|].
  vm_compute. repeat split.
Qed.

(** C7.  The code at a white primary, dark mode active: the new primary has
    lightness 100, and the foreground computed against it is ["0 10% 95%"],
    lightness 95. *)
Theorem dark_primary_edit_light_foreground_on_light_primary :
  isDarkMode darkDefaultTheme = true /\
  exists state',
    updateThemeColor primary "#ffffff" darkDefaultTheme = Ok state' /\
    darkColors state' primary = "0 0% 100%" /\
    lightness (darkColors state' primary) = JS.Num 100 /\
    darkColors state' primaryForeground = "0 10% 95%" /\
    lightness (darkColors state' primaryForeground) = JS.Num 95.
Proof.
  split; [reflexivity|].
  eexists. split; [vm_compute; reflexivity|].
  vm_compute. repeat split.
Qed.

(** C5 fails as stated: with dark mode active, a background edit to black
    turns the light palette's background from white to black. *)
Lemma background_edit_in_dark_mode_changes_light :
  isDarkMode darkDefaultTheme = true /\
  exists state',
    updateThemeColor background "#000000" darkDefaultTheme = Ok state' /\
    colors darkDefaultTheme background = "0 0% 100%" /\
    colors state' background = "0 0% 0%" /\
    colors state' background <> colors darkDefaultTheme background.
Proof.
  split; [reflexivity|].
  eexists. split; [vm_compute; reflexivity|].
  repeat split; try discriminate.
Qed.


(** C1 at the default preset's primary, dark mode active. *)
Lemma primary_edit_in_dark_mode_resynthesises_witness :
  exists state',
    updateThemeColor primary "#7a3be0" darkDefaultTheme = Ok state' /\
    darkColors state' secondary = "263 30% 30%" /\
    7 <= 30 <= 30 /\
    15 <= 30 <= 30 /\
    darkColors state' accent = "293 78% 65%" /\
    0 <= 293 < 360 /\
    5 <= 78 <= 80 /\
    15 <= 65 <= 65.
Proof.
  apply (primary_edit_in_dark_mode_resynthesises
           (CU := specColorUtils) darkDefaultTheme "#7a3be0" 263 73 55);
    [reflexivity | reflexivity | lia | lia | lia].
Defined.

(** C2 at the default preset's primary, on the default theme. *)
Lemma primary_edit_in_light_mode_keeps_secondary_and_accent_witness :
  exists state',
    updateThemeColor primary "#7a3be0" defaultTheme = Ok state' /\
    colors state' secondary = "291 30% 85%" /\
    colors state' accent = "291 50% 75%".
Proof.
  apply (primary_edit_in_light_mode_keeps_secondary_and_accent
           (CU := specColorUtils) defaultTheme "#7a3be0" "263 73% 55%");
    reflexivity.
Defined.

(** C5 as amended, at a black background, dark mode active. *)
Lemma background_edit_in_dark_mode_writes_both_palettes_witness :
  exists state',
    updateThemeColor background "#000000" darkDefaultTheme = Ok state' /\
    (forall k, darkColors state' k
               = if is_surface k || ThemeColorKey_beq k sidebar then "0 0% 0%"
                 else defaultDarkColors k) /\
    (forall k, colors state' k
               = if is_surface k then "0 0% 0%" else defaultLightColors k).
Proof.
  apply (background_edit_in_dark_mode_writes_both_palettes
           (CU := specColorUtils) darkDefaultTheme "#000000" "0 0% 0%");
    reflexivity.
Defined.


(** C8 at the default theme, whose only preset is called Default. *)
Lemma setCurrentTheme_unknown_name_is_noop_witness :
  setCurrentTheme "Solarized" defaultTheme = Ok defaultTheme.
Proof.
  apply (setCurrentTheme_unknown_name_is_noop (CU := specColorUtils)).
  simpl. intros t [<- | []]. discriminate.
Defined.

(* ================================================================== *)
(** ** Further properties of the colour strings and the chart generator *)
(* ================================================================== *)

(** X1.  The template literal and the two readers of the store are inverse
    to each other on integers: a triple printed as ["H S% L%"] splits into
    exactly three pieces, and both [split]/[parseFloat] (the generator) and
    [split]/[parseInt] (the dedicated dark branch) read [h], [s], [l] back. *)
Theorem hslString_round_trip (h s l : Z) :
  parseComponents (hslString h s l) = [JS.Num h; JS.Num s; JS.Num l] /\
  exists hStr sStr lStr,
    JS.split " " (hslString h s l) = [hStr; sStr; lStr] /\
    JS.parseInt hStr = JS.Num h /\
    JS.parseInt (JS.remove_first "%" sStr) = JS.Num s /\
    JS.parseInt (JS.remove_first "%" lStr) = JS.Num l.
Proof.
  split; [apply parseComponents_hslString|].
  exists (JS.showZ h), (JS.showZ s ++ "%"), (JS.showZ l ++ "%").
  split; [apply split_hslString|].
  destruct (parseInt_pieces h) as [Hh _].
  destruct (parseInt_pieces s) as [_ Hs].
  destruct (parseInt_pieces l) as [_ Hl].
  repeat split; assumption.
Qed.

(** X2.  The dark-mode rule table of [generateChartColors]: for a primary
    [(h, s%, l%)] the four derived charts keep hue [h] with
    chart2 = (min (s + 5) 90, min (l + 15) 70),
    chart3 = (min (s + 10) 95, min (l + 25) 80),
    chart4 = (max (s - 10) 40, max (l - 15) 30),
    chart5 = (max (s - 20) 30, max (l - 25) 20). *)
Theorem generateChartColors_dark_rule_table (h s l : Z) (secondary accent : string) :
  let dark := generateChartColors (hslString h s l) secondary accent true in
  Charts.chart2 dark = hslString h (Z.min (s + 5) 90) (Z.min (l + 15) 70) /\
  Charts.chart3 dark = hslString h (Z.min (s + 10) 95) (Z.min (l + 25) 80) /\
  Charts.chart4 dark = hslString h (Z.max (s - 10) 40) (Z.max (l - 15) 30) /\
  Charts.chart5 dark = hslString h (Z.max (s - 20) 30) (Z.max (l - 25) 20).
Proof.
  cbv zeta. rewrite generateChartColors_dark_table. repeat split.
Qed.

(** X3.  The chart generator keeps colours inside the colour space: for a
    primary with saturation and lightness in [0, 100], each of chart2 to
    chart5, in light and in dark mode, is a printed triple on the primary's
    hue whose saturation and lightness lie in [0, 100] again. *)
Theorem generateChartColors_in_range
    (h s l : Z) (secondary accent : string) (isDarkMode : bool) :
  0 <= s <= 100 -> 0 <= l <= 100 ->
  let c := generateChartColors (hslString h s l) secondary accent isDarkMode in
  Forall (fun chart => exists s' l' : Z,
            chart = hslString h s' l' /\ 0 <= s' <= 100 /\ 0 <= l' <= 100)
         [Charts.chart2 c; Charts.chart3 c; Charts.chart4 c; Charts.chart5 c].
Proof.
  intros Hs Hl. cbv zeta. unfold generateChartColors.
  rewrite parseComponents_hslString.
  destruct isDarkMode;
    cbn [JS.nth_value nth JS.add JS.sub JS.Math_min JS.Math_max
         Charts.chart2 Charts.chart3 Charts.chart4 Charts.chart5];
    repeat constructor; eexists; eexists; (split; [reflexivity | lia]).
Qed.

Lemma generateChartColors_in_range_witness :
  Forall (fun chart => exists s' l' : Z,
            chart = hslString 291 s' l' /\ 0 <= s' <= 100 /\ 0 <= l' <= 100)
         ["291 65% 60%"; "291 50% 70%"; "291 90% 30%"; "291 85% 20%"].
Proof.
  apply (generateChartColors_in_range 291 80 45 "" "" false); lia.
Defined.

(* ================================================================== *)
(** ** The dark derivation of a preset: [deriveDarkModeColors] *)
(* ================================================================== *)

Section DeriveFacts.
Context {CU : ColorUtils}.

(** The dark derivation reads four roles of the light palette and no
    other. *)
Lemma deriveDarkModeColors_seeds (lightColors : ThemeColors) (k : ThemeColorKey) :
  deriveDarkModeColors lightColors k
  = deriveDarkModeColors
      (seedPalette (lightColors primary) (lightColors secondary)
                   (lightColors accent) (lightColors destructive)) k.
Proof. destruct k; reflexivity. Qed.

Lemma deriveDarkModeColors_ext (light1 light2 : ThemeColors) :
  light1 primary = light2 primary ->
  light1 secondary = light2 secondary ->
  light1 accent = light2 accent ->
  light1 destructive = light2 destructive ->
  forall k, deriveDarkModeColors light1 k = deriveDarkModeColors light2 k.
Proof.
  intros Hp Hs Ha Hd k.
  rewrite (deriveDarkModeColors_seeds light1), (deriveDarkModeColors_seeds light2).
  rewrite Hp, Hs, Ha, Hd. reflexivity.
Qed.

(** X4.  [deriveDarkModeColors] depends on the light palette only through
    [primary], [secondary], [accent] and [destructive]: two light palettes
    that agree on these four roles derive the same dark palette, role by
    role; and [destructive] is the one role handed over unchanged. *)
Theorem deriveDarkModeColors_reads_four_roles (light1 light2 : ThemeColors) :
  light1 primary = light2 primary ->
  light1 secondary = light2 secondary ->
  light1 accent = light2 accent ->
  light1 destructive = light2 destructive ->
  (forall k, deriveDarkModeColors light1 k = deriveDarkModeColors light2 k) /\
  deriveDarkModeColors light1 destructive = light1 destructive.
Proof.
  intros Hp Hs Ha Hd. split; [|reflexivity].
  apply deriveDarkModeColors_ext; assumption.
Qed.

(** The seed roles of the derived palette, read off the assignments. *)
Lemma deriveDarkModeColors_readout (lightColors : ThemeColors) :
  let p := parseComponents (lightColors primary) in
  let s := parseComponents (lightColors secondary) in
  let a := parseComponents (lightColors accent) in
  let dark := deriveDarkModeColors lightColors in
  dark primary
  = hslString (JS.nth_value p 0) (JS.Math_max (JS.nth_value p 1) 60)
      (JS.Math_min (JS.Math_max (JS.nth_value p 2) 50) 60) /\
  dark secondary
  = hslString (JS.nth_value s 0) (JS.Math_max (JS.nth_value s 1) 10)
      (JS.Math_max 15 (JS.Math_min 25 (JS.nth_value s 2 - 70))) /\
  dark accent
  = hslString (JS.nth_value a 0) (JS.Math_max (JS.nth_value a 1) 60)
      (JS.Math_min (JS.Math_max (JS.nth_value a 2 - 20) 40) 60) /\
  dark background = hslString (JS.nth_value p 0) 30 8 /\
  dark card = hslString (JS.nth_value p 0) 30 12 /\
  dark border = hslString (JS.nth_value p 0) 25 18 /\
  dark foreground = hslString (JS.nth_value p 0) 10 95 /\
  dark mutedForeground = hslString (JS.nth_value s 0) 15 65.
Proof. cbv zeta. repeat split; reflexivity. Qed.

(** X5.  The seeds of a derived dark palette, for light seeds printed from
    integers: the primary keeps its hue with saturation raised to at least 60
    and lightness clamped into [50, 60]; the secondary keeps its hue with
    saturation at least 10 and lightness [l - 70] clamped into [15, 25]; the
    accent keeps its hue with saturation at least 60 and lightness [l - 20]
    clamped into [40, 60]; background, card and border sit on the primary's
    hue at fixed 30% 8%, 30% 12% and 25% 18%. *)
Theorem deriveDarkModeColors_seed_rules
    (lightColors : ThemeColors) (ph ps pl sh ss sl ah as_ al : Z) :
  lightColors primary = hslString ph ps pl ->
  lightColors secondary = hslString sh ss sl ->
  lightColors accent = hslString ah as_ al ->
  let dark := deriveDarkModeColors lightColors in
  dark primary = hslString ph (Z.max ps 60) (Z.min (Z.max pl 50) 60) /\
  50 <= Z.min (Z.max pl 50) 60 <= 60 /\
  dark secondary = hslString sh (Z.max ss 10) (Z.max 15 (Z.min 25 (sl - 70))) /\
  15 <= Z.max 15 (Z.min 25 (sl - 70)) <= 25 /\
  dark accent = hslString ah (Z.max as_ 60) (Z.min (Z.max (al - 20) 40) 60) /\
  40 <= Z.min (Z.max (al - 20) 40) 60 <= 60 /\
  dark background = hslString ph 30 8 /\
  dark card = hslString ph 30 12 /\
  dark border = hslString ph 25 18 /\
  dark foreground = hslString ph 10 95 /\
  dark mutedForeground = hslString sh 15 65.
Proof.
  intros Hp Hs Ha. cbv zeta.
  pose proof (deriveDarkModeColors_readout lightColors) as R. cbv zeta in R.
  rewrite Hp, Hs, Ha, !parseComponents_hslString in R.
  cbn [JS.nth_value nth JS.sub JS.Math_max JS.Math_min] in R.
  destruct R as (-> & -> & -> & -> & -> & -> & -> & ->).
  repeat split; try reflexivity; lia.
Qed.

(** X6.  Whatever the light palette holds, the derived dark palette is
    coherent: ring, sidebarPrimary, sidebarRing and chart1 equal primary;
    popover equals card; the card, popover and sidebar foregrounds equal
    foreground; muted equals secondary; input and sidebarBorder equal border;
    sidebar equals background; the sidebar accent pair equals the accent
    pair; and charts 2 to 5 are the dark-mode generator's series of the
    derived primary. *)
Theorem deriveDarkModeColors_coherent (lightColors : ThemeColors) :
  let dark := deriveDarkModeColors lightColors in
  dark ring = dark primary /\
  dark sidebarPrimary = dark primary /\
  dark sidebarRing = dark primary /\
  dark chart1 = dark primary /\
  dark popover = dark card /\
  dark cardForeground = dark foreground /\
  dark popoverForeground = dark foreground /\
  dark sidebarForeground = dark foreground /\
  dark muted = dark secondary /\
  dark input = dark border /\
  dark sidebarBorder = dark border /\
  dark sidebar = dark background /\
  dark sidebarAccent = dark accent /\
  dark sidebarAccentForeground = dark accentForeground /\
  dark sidebarPrimaryForeground = dark primaryForeground /\
  dark primaryForeground = calculateContrastingColor (dark primary) None /\
  dark secondaryForeground = calculateContrastingColor (dark secondary) None /\
  dark accentForeground = calculateContrastingColor (dark accent) None /\
  (let g := generateChartColors (dark primary) (dark secondary) (dark accent) true in
   dark chart2 = Charts.chart2 g /\ dark chart3 = Charts.chart3 g /\
   dark chart4 = Charts.chart4 g /\ dark chart5 = Charts.chart5 g).
Proof.
  cbv zeta. repeat split; reflexivity.
Qed.

End DeriveFacts.

Lemma deriveDarkModeColors_reads_four_roles_witness :
  (forall k, deriveDarkModeColors defaultLightColors k
             = deriveDarkModeColors
                 (seedPalette "291 80% 45%" "291 30% 85%" "291 50% 75%"
                              "357.18 100% 45%") k) /\
  deriveDarkModeColors defaultLightColors destructive = "357.18 100% 45%".
Proof.
  apply (deriveDarkModeColors_reads_four_roles (CU := specColorUtils)
           defaultLightColors
           (seedPalette "291 80% 45%" "291 30% 85%" "291 50% 75%"
                        "357.18 100% 45%")); reflexivity.
Defined.

Lemma deriveDarkModeColors_seed_rules_witness :
  deriveDarkModeColors defaultLightColors primary = "291 80% 50%" /\
  50 <= 50 <= 60 /\
  deriveDarkModeColors defaultLightColors secondary = "291 30% 15%" /\
  15 <= 15 <= 25 /\
  deriveDarkModeColors defaultLightColors accent = "291 60% 55%" /\
  40 <= 55 <= 60 /\
  deriveDarkModeColors defaultLightColors background = "291 30% 8%" /\
  deriveDarkModeColors defaultLightColors card = "291 30% 12%" /\
  deriveDarkModeColors defaultLightColors border = "291 25% 18%" /\
  deriveDarkModeColors defaultLightColors foreground = "291 10% 95%" /\
  deriveDarkModeColors defaultLightColors mutedForeground = "291 15% 65%".
Proof.
  apply (deriveDarkModeColors_seed_rules (CU := specColorUtils)
           defaultLightColors 291 80 45 291 30 85 291 50 75); reflexivity.
Defined.

(* ================================================================== *)
(** ** Further properties of [updateThemeColor] *)
(* ================================================================== *)

Section UpdateFacts.
Context {CU : ColorUtils}.

(** X7.  An edit whose hex value converts succeeds and changes nothing but
    the two palettes: fonts, radius, dark-mode flag, harmony, menu flags,
    presets and current theme are those of the prior state.  (For a primary
    edit in dark mode the converted value has to be a printed triple, since
    that branch takes it apart.) *)
Theorem updateThemeColor_only_palettes
    (key : ThemeColorKey) (hex hsl : string) (state : ThemeState) :
  hexToHSL hex = Ok hsl ->
  (key = primary -> isDarkMode state = true ->
   exists h s l : Z, hsl = hslString h s l) ->
  exists lightColors darkColors,
    updateThemeColor key hex state = Ok (with_palettes state lightColors darkColors).
Proof.
  intros Hhex Hprinted.
  destruct (ThemeColorKey_eq_dec key primary) as [-> | Hkey];
    [destruct (isDarkMode state) eqn:Hdark|].
  - destruct (Hprinted eq_refl eq_refl) as (h & s & l & ->).
    eexists. eexists. apply updateThemeColor_primary_dark; eassumption.
  - unfold updateThemeColor. rewrite Hhex. cbn [bind]. rewrite Hdark.
    cbn [ThemeColorKey_beq andb negb]. eexists. eexists. reflexivity.
  - unfold updateThemeColor. rewrite Hhex. cbn [bind].
    destruct key; try contradiction; cbn [ThemeColorKey_beq andb];
      destruct (isDarkMode state); cbn [negb]; eexists; eexists; reflexivity.
Qed.

(** X8.  The dedicated dark-mode branch of a primary edit leaves the whole
    light palette alone and, in the dark palette, never writes background,
    foreground, card, popover, their foregrounds, destructive, sidebar,
    sidebarForeground or sidebarRing; so [ring] follows the new primary while
    [sidebarRing] keeps its old value. *)
Theorem primary_edit_in_dark_mode_frame
    (state : ThemeState) (hex : string) (h s l : Z) :
  isDarkMode state = true ->
  hexToHSL hex = Ok (hslString h s l) ->
  exists state',
    updateThemeColor primary hex state = Ok state' /\
    (forall k, colors state' k = colors state k) /\
    (forall k, In k [background; foreground; card; cardForeground; popover;
                     popoverForeground; destructive; sidebar;
                     sidebarForeground; sidebarRing] ->
               darkColors state' k = darkColors state k) /\
    darkColors state' ring = hslString h s l /\
    darkColors state' sidebarPrimary = hslString h s l.
Proof.
  intros Hdark Hhex.
  eexists. split; [apply updateThemeColor_primary_dark; eassumption|].
  split; [reflexivity|]. split; [|split; reflexivity].
  intros k Hin. cbn [In] in Hin.
  repeat (destruct Hin as [<- | Hin]; [reflexivity|]). contradiction.
Qed.

(** X9.  A foreground edit, in either mode: foreground, cardForeground and
    popoverForeground of the light palette take the new value, the same three
    roles of the dark palette take [getContrastHSL] of it, and every other
    role of both palettes keeps its value. *)
Theorem foreground_edit_effect (state : ThemeState) (hex hsl : string) :
  hexToHSL hex = Ok hsl ->
  exists state',
    updateThemeColor foreground hex state = Ok state' /\
    forall k,
      let text := ThemeColorKey_beq k foreground
                  || ThemeColorKey_beq k cardForeground
                  || ThemeColorKey_beq k popoverForeground in
      colors state' k = (if text then hsl else colors state k) /\
      darkColors state' k = (if text then getContrastHSL hsl else darkColors state k).
Proof.
  intros Hhex. unfold updateThemeColor. rewrite Hhex. cbn [bind].
  cbn [ThemeColorKey_beq andb].
  eexists. split; [reflexivity|].
  intros k. destruct k; split; reflexivity.
Qed.

(** X10.  An edit of a role that is not one of the five seeds (destructive,
    border, a chart, ...) copies the converted value into that role of both
    palettes and touches no other role, in either mode. *)
Theorem other_role_edit_effect
    (key : ThemeColorKey) (state : ThemeState) (hex hsl : string) :
  is_seed key = false ->
  hexToHSL hex = Ok hsl ->
  exists state',
    updateThemeColor key hex state = Ok state' /\
    forall k,
      colors state' k = (if ThemeColorKey_beq k key then hsl else colors state k) /\
      darkColors state' k
      = (if ThemeColorKey_beq k key then hsl else darkColors state k).
Proof.
  intros Hseed Hhex. unfold updateThemeColor. rewrite Hhex. cbn [bind].
  destruct key; try discriminate Hseed; cbn [ThemeColorKey_beq andb];
    (eexists; split; [reflexivity|]; intros k; split; reflexivity).
Qed.

(** X11.  A secondary edit with dark mode inactive: the light palette takes
    the new value at secondary, muted and sidebar; the dark palette takes, at
    secondary and muted, the new hue with saturation [max (s - 20) 10] and
    lightness [l - 70] clamped into [15, 25], and its secondaryForeground is
    the resolver's answer for that darkened colour. *)
Theorem secondary_edit_in_light_mode_effect
    (state : ThemeState) (hex : string) (h s l : Z) :
  isDarkMode state = false ->
  hexToHSL hex = Ok (hslString h s l) ->
  exists state',
    updateThemeColor secondary hex state = Ok state' /\
    colors state' secondary = hslString h s l /\
    colors state' muted = hslString h s l /\
    colors state' sidebar = hslString h s l /\
    darkColors state' secondary
    = hslString h (Z.max (s - 20) 10) (Z.max 15 (Z.min 25 (l - 70))) /\
    darkColors state' muted = darkColors state' secondary /\
    darkColors state' secondaryForeground
    = calculateContrastingColor (darkColors state' secondary) None /\
    10 <= Z.max (s - 20) 10 /\
    15 <= Z.max 15 (Z.min 25 (l - 70)) <= 25.
Proof.
  intros Hlight Hhex. unfold updateThemeColor.
  rewrite Hhex. cbn [bind]. rewrite Hlight.
  cbn [ThemeColorKey_beq andb negb].
  eexists. split; [reflexivity|].
  cbn [colors darkColors with_palettes]. unfold assign_charts, assign.
  cbn [ThemeColorKey_beq].
  rewrite parseComponents_hslString.
  repeat split; try reflexivity; lia.
Qed.

(** X12.  With dark mode active, a secondary or an accent edit does not
    change a single role of the dark palette, the one on display: only the
    light palette is written. *)
Theorem secondary_or_accent_edit_in_dark_mode_keeps_dark
    (key : ThemeColorKey) (state : ThemeState) (hex hsl : string) :
  key = secondary \/ key = accent ->
  isDarkMode state = true ->
  hexToHSL hex = Ok hsl ->
  exists state',
    updateThemeColor key hex state = Ok state' /\
    (forall k, darkColors state' k = darkColors state k) /\
    colors state' key = hsl.
Proof.
  intros Hkey Hdark Hhex. unfold updateThemeColor.
  rewrite Hhex. cbn [bind]. rewrite Hdark.
  destruct Hkey as [-> | ->]; cbn [ThemeColorKey_beq andb negb];
    (eexists; split; [reflexivity|]; split; [intros k|]; reflexivity).
Qed.

(** X13.  A primary edit with dark mode inactive regenerates the dark chart
    series before it overwrites the dark primary: afterwards the dark chart
    series is the dark-mode generator's series of the primary the dark
    palette held before the edit, while the dark primary is the new value;
    the light series is the light-mode generator's series of the new
    value. *)
Theorem primary_edit_in_light_mode_charts
    (state : ThemeState) (hex hsl : string) :
  isDarkMode state = false ->
  hexToHSL hex = Ok hsl ->
  exists state',
    updateThemeColor primary hex state = Ok state' /\
    darkColors state' primary = hsl /\
    (let old := generateChartColors (darkColors state primary)
                  (darkColors state secondary) (darkColors state accent) true in
     darkColors state' chart1 = darkColors state primary /\
     darkColors state' chart2 = Charts.chart2 old /\
     darkColors state' chart3 = Charts.chart3 old /\
     darkColors state' chart4 = Charts.chart4 old /\
     darkColors state' chart5 = Charts.chart5 old) /\
    (let new := generateChartColors hsl (colors state secondary)
                  (colors state accent) false in
     colors state' chart1 = hsl /\
     colors state' chart2 = Charts.chart2 new /\
     colors state' chart3 = Charts.chart3 new /\
     colors state' chart4 = Charts.chart4 new /\
     colors state' chart5 = Charts.chart5 new).
Proof.
  intros Hlight Hhex. unfold updateThemeColor.
  rewrite Hhex. cbn [bind]. rewrite Hlight.
  cbn [ThemeColorKey_beq andb negb].
  eexists. split; [reflexivity|]. cbv zeta.
  repeat split; reflexivity.
Qed.

(** X14.  The dedicated dark-mode branch is idempotent: the same primary
    edit applied a second time leaves both palettes, role by role, as the
    first application left them. *)
Theorem primary_edit_in_dark_mode_idempotent
    (state : ThemeState) (hex : string) (h s l : Z) :
  isDarkMode state = true ->
  hexToHSL hex = Ok (hslString h s l) ->
  exists once twice,
    updateThemeColor primary hex state = Ok once /\
    updateThemeColor primary hex once = Ok twice /\
    forall k, colors twice k = colors once k /\
              darkColors twice k = darkColors once k.
Proof.
  intros Hdark Hhex.
  eexists. eexists.
  split; [apply updateThemeColor_primary_dark; eassumption|].
  split; [apply updateThemeColor_primary_dark; [exact Hdark | exact Hhex]|].
  intros k. cbn [colors darkColors with_palettes]. cbv zeta. unfold assign.
  destruct k; cbn [ThemeColorKey_beq]; split; reflexivity.
Qed.

(** What the light-mode branch of a primary edit writes. *)
Lemma updateThemeColor_primary_light (state : ThemeState) (hex hsl : string) :
  isDarkMode state = false ->
  hexToHSL hex = Ok hsl ->
  updateThemeColor primary hex state =
  Ok (with_palettes state
        (assign_charts
           (generateChartColors hsl (colors state secondary) (colors state accent) false)
           (colors state).[primary := hsl]
             .[primaryForeground := contrasting hsl].[ring := hsl]
             .[sidebarPrimary := hsl]
             .[sidebarPrimaryForeground := contrasting hsl]
             .[sidebarRing := hsl])
        (assign_charts
           (generateChartColors (darkColors state primary)
              (darkColors state secondary) (darkColors state accent) true)
           (darkColors state))
          .[primary := hsl].[primaryForeground := contrasting hsl]
          .[ring := hsl].[sidebarPrimary := hsl]
          .[sidebarPrimaryForeground := contrasting hsl].[sidebarRing := hsl]).
Proof.
  intros Hlight Hhex. unfold updateThemeColor.
  rewrite Hhex. cbn [bind]. rewrite Hlight.
  cbn [ThemeColorKey_beq andb negb]. reflexivity.
Qed.

(** X15.  In light mode the staleness of X13 lasts one edit: after the same
    primary edit is applied twice, the dark chart series is the dark-mode
    generator's series of the new primary, chart1 included. *)
Theorem primary_edit_in_light_mode_twice
    (state : ThemeState) (hex hsl : string) :
  isDarkMode state = false ->
  hexToHSL hex = Ok hsl ->
  exists once twice,
    updateThemeColor primary hex state = Ok once /\
    updateThemeColor primary hex once = Ok twice /\
    darkColors twice primary = hsl /\
    (let g := generateChartColors hsl (darkColors state secondary)
                (darkColors state accent) true in
     darkColors twice chart1 = hsl /\
     darkColors twice chart2 = Charts.chart2 g /\
     darkColors twice chart3 = Charts.chart3 g /\
     darkColors twice chart4 = Charts.chart4 g /\
     darkColors twice chart5 = Charts.chart5 g) /\
    (forall k, colors twice k = colors once k).
Proof.
  intros Hlight Hhex.
  eexists. eexists.
  split; [apply updateThemeColor_primary_light; eassumption|].
  split; [apply updateThemeColor_primary_light; [exact Hlight | exact Hhex]|].
  cbn [colors darkColors with_palettes]. unfold assign_charts, assign.
  cbn [ThemeColorKey_beq]. cbv zeta.
  repeat split; try reflexivity.
  intros k; destruct k; reflexivity.
Qed.

End UpdateFacts.

Lemma updateThemeColor_only_palettes_witness :
  exists lightColors darkColors,
    updateThemeColor destructive "#ff0000" defaultTheme
    = Ok (with_palettes defaultTheme lightColors darkColors).
Proof.
  apply (updateThemeColor_only_palettes (CU := specColorUtils)
           destructive "#ff0000" "0 100% 50%" defaultTheme);
    [reflexivity | discriminate].
Defined.

Lemma primary_edit_in_dark_mode_frame_witness :
  exists state',
    updateThemeColor primary "#7a3be0" darkDefaultTheme = Ok state' /\
    (forall k, colors state' k = defaultLightColors k) /\
    (forall k, In k [background; foreground; card; cardForeground; popover;
                     popoverForeground; destructive; sidebar;
                     sidebarForeground; sidebarRing] ->
               darkColors state' k = defaultDarkColors k) /\
    darkColors state' ring = "263 73% 55%" /\
    darkColors state' sidebarPrimary = "263 73% 55%".
Proof.
  apply (primary_edit_in_dark_mode_frame (CU := specColorUtils)
           darkDefaultTheme "#7a3be0" 263 73 55); reflexivity.
Defined.

Lemma foreground_edit_effect_witness :
  exists state',
    updateThemeColor foreground "#000000" defaultTheme = Ok state' /\
    forall k,
      let text := ThemeColorKey_beq k foreground
                  || ThemeColorKey_beq k cardForeground
                  || ThemeColorKey_beq k popoverForeground in
      colors state' k = (if text then "0 0% 0%" else defaultLightColors k) /\
      darkColors state' k
      = (if text then getContrastHSL "0 0% 0%" else defaultDarkColors k).
Proof.
  apply (foreground_edit_effect (CU := specColorUtils)
           defaultTheme "#000000" "0 0% 0%"); reflexivity.
Defined.

Lemma other_role_edit_effect_witness :
  exists state',
    updateThemeColor destructive "#ff0000" defaultTheme = Ok state' /\
    forall k,
      colors state' k
      = (if ThemeColorKey_beq k destructive then "0 100% 50%"
         else defaultLightColors k) /\
      darkColors state' k
      = (if ThemeColorKey_beq k destructive then "0 100% 50%"
         else defaultDarkColors k).
Proof.
  apply (other_role_edit_effect (CU := specColorUtils)
           destructive defaultTheme "#ff0000" "0 100% 50%"); reflexivity.
Defined.

Lemma secondary_edit_in_light_mode_effect_witness :
  exists state',
    updateThemeColor secondary "#dbd2f5" defaultTheme = Ok state' /\
    colors state' secondary = "255 64% 89%" /\
    colors state' muted = "255 64% 89%" /\
    colors state' sidebar = "255 64% 89%" /\
    darkColors state' secondary = "255 44% 19%" /\
    darkColors state' muted = darkColors state' secondary /\
    darkColors state' secondaryForeground
    = calculateContrastingColor (darkColors state' secondary) None /\
    10 <= 44 /\
    15 <= 19 <= 25.
Proof.
  apply (secondary_edit_in_light_mode_effect (CU := specColorUtils)
           defaultTheme "#dbd2f5" 255 64 89); reflexivity.
Defined.

Lemma secondary_or_accent_edit_in_dark_mode_keeps_dark_witness :
  exists state',
    updateThemeColor accent "#ff0000" darkDefaultTheme = Ok state' /\
    (forall k, darkColors state' k = defaultDarkColors k) /\
    colors state' accent = "0 100% 50%".
Proof.
  apply (secondary_or_accent_edit_in_dark_mode_keeps_dark (CU := specColorUtils)
           accent darkDefaultTheme "#ff0000" "0 100% 50%");
    [right; reflexivity | reflexivity | reflexivity].
Defined.

Lemma primary_edit_in_light_mode_charts_witness :
  exists state',
    updateThemeColor primary "#ff0000" defaultTheme = Ok state' /\
    darkColors state' primary = "0 100% 50%" /\
    (darkColors state' chart1 = "291 75% 50%" /\
     darkColors state' chart2 = "291 80% 65%" /\
     darkColors state' chart3 = "291 85% 75%" /\
     darkColors state' chart4 = "291 65% 35%" /\
     darkColors state' chart5 = "291 55% 25%") /\
    (colors state' chart1 = "0 100% 50%" /\
     colors state' chart2 = "0 85% 65%" /\
     colors state' chart3 = "0 70% 75%" /\
     colors state' chart4 = "0 90% 35%" /\
     colors state' chart5 = "0 85% 25%").
Proof.
  apply (primary_edit_in_light_mode_charts (CU := specColorUtils)
           defaultTheme "#ff0000" "0 100% 50%"); reflexivity.
Defined.

Lemma primary_edit_in_dark_mode_idempotent_witness :
  exists once twice,
    updateThemeColor primary "#7a3be0" darkDefaultTheme = Ok once /\
    updateThemeColor primary "#7a3be0" once = Ok twice /\
    forall k, colors twice k = colors once k /\
              darkColors twice k = darkColors once k.
Proof.
  apply (primary_edit_in_dark_mode_idempotent (CU := specColorUtils)
           darkDefaultTheme "#7a3be0" 263 73 55); reflexivity.
Defined.

Lemma primary_edit_in_light_mode_twice_witness :
  exists once twice,
    updateThemeColor primary "#ff0000" defaultTheme = Ok once /\
    updateThemeColor primary "#ff0000" once = Ok twice /\
    darkColors twice primary = "0 100% 50%" /\
    (darkColors twice chart1 = "0 100% 50%" /\
     darkColors twice chart2 = "0 90% 65%" /\
     darkColors twice chart3 = "0 95% 75%" /\
     darkColors twice chart4 = "0 90% 35%" /\
     darkColors twice chart5 = "0 80% 25%") /\
    (forall k, colors twice k = colors once k).
Proof.
  apply (primary_edit_in_light_mode_twice (CU := specColorUtils)
           defaultTheme "#ff0000" "0 100% 50%"); reflexivity.
Defined.

(* ================================================================== *)
(** ** Selecting and adding presets *)
(* ================================================================== *)

Lemma key_of_name_sound (name : string) (k : ThemeColorKey) :
  key_of_name name = Some k -> key_name k = name.
Proof.
  unfold key_of_name. intros Hfind.
  apply find_some in Hfind. destruct Hfind as [_ Heq].
  apply String.eqb_eq. exact Heq.
Qed.

Lemma assign_other (k k' : ThemeColorKey) (v : string) (p : ThemeColors) :
  k' <> k -> p.[k := v] k' = p k'.
Proof.
  intros Hne. unfold assign.
  destruct (ThemeColorKey_beq k' k) eqn:Heq; [|reflexivity].
  apply internal_ThemeColorKey_dec_bl in Heq. contradiction.
Qed.

Section PresetFacts.
Context {CU : ColorUtils}.

(** The loop over a preset's colours skips the entry named ["foreground"]
    (its name includes the text it filters on). *)
Lemma apply_preset_colors_foreground
    (entries : list (string * string)) (p p' : ThemeColors) :
  apply_preset_colors entries p = Ok p' -> p' foreground = p foreground.
Proof.
  revert p. induction entries as [|[key value] rest IH]; intros p; cbn [apply_preset_colors].
  - intros [= <-]. reflexivity.
  - destruct (key_of_name key) as [k|] eqn:Hk; [|apply IH].
    destruct (JS.includes key "foreground") eqn:Hinc; cbn [negb]; [apply IH|].
    destruct (hexToHSL value) as [hsl|e]; cbn [bind]; [|discriminate].
    intros Hrest. rewrite (IH _ Hrest). apply assign_other.
    intros <-. apply key_of_name_sound in Hk. subst key. discriminate Hinc.
Qed.

(** A chart block writes the one chart role it names, in both palettes. *)
Lemma apply_preset_chart_frame
    (entries : list (string * string)) (c : ThemeColorKey)
    (l d l' d' : ThemeColors) :
  apply_preset_chart entries c (l, d) = Ok (l', d') ->
  forall k, k <> c -> l' k = l k /\ d' k = d k.
Proof.
  unfold apply_preset_chart.
  destruct (truthy _); [|intros [= <- <-]; split; reflexivity].
  destruct (preset_color entries (key_name c)) as [hex|];
    [|intros [= <- <-]; split; reflexivity].
  destruct (hexToHSL hex) as [hsl|e]; cbn [bind]; [|discriminate].
  intros [= <- <-] k Hk. split; apply assign_other; assumption.
Qed.

(** The five chart blocks in a row write nothing but chart roles. *)
Lemma apply_preset_charts_frame
    (entries : list (string * string)) (l d l' d' : ThemeColors) :
  (ps <- apply_preset_chart entries chart1 (l, d) ;;
   ps <- apply_preset_chart entries chart2 ps ;;
   ps <- apply_preset_chart entries chart3 ps ;;
   ps <- apply_preset_chart entries chart4 ps ;;
   apply_preset_chart entries chart5 ps) = Ok (l', d') ->
  forall k, ~ In k [chart1; chart2; chart3; chart4; chart5] ->
            l' k = l k /\ d' k = d k.
Proof.
  destruct (apply_preset_chart entries chart1 (l, d)) as [[l2 d2]|e] eqn:H1;
    cbn [bind]; [|discriminate].
  destruct (apply_preset_chart entries chart2 (l2, d2)) as [[l3 d3]|e] eqn:H2;
    cbn [bind]; [|discriminate].
  destruct (apply_preset_chart entries chart3 (l3, d3)) as [[l4 d4]|e] eqn:H3;
    cbn [bind]; [|discriminate].
  destruct (apply_preset_chart entries chart4 (l4, d4)) as [[l5 d5]|e] eqn:H4;
    cbn [bind]; [|discriminate].
  intros H5 k Hk. cbn [In] in Hk.
  destruct (apply_preset_chart_frame _ _ _ _ _ _ H5 k) as [-> ->]; [intros ->; tauto|].
  destruct (apply_preset_chart_frame _ _ _ _ _ _ H4 k) as [-> ->]; [intros ->; tauto|].
  destruct (apply_preset_chart_frame _ _ _ _ _ _ H3 k) as [-> ->]; [intros ->; tauto|].
  destruct (apply_preset_chart_frame _ _ _ _ _ _ H2 k) as [-> ->]; [intros ->; tauto|].
  destruct (apply_preset_chart_frame _ _ _ _ _ _ H1 k) as [-> ->]; [intros ->; tauto|].
  split; reflexivity.
Qed.

(** X16.  No preset can set the light palette's [foreground]: whatever the
    preset holds, a successful [setCurrentTheme] leaves that role, the
    dark-mode flag and the list of presets as they were. *)
Theorem setCurrentTheme_keeps_foreground
    (themeName : string) (state state' : ThemeState) :
  setCurrentTheme themeName state = Ok state' ->
  colors state' foreground = colors state foreground /\
  isDarkMode state' = isDarkMode state /\
  predefinedThemes state' = predefinedThemes state.
Proof.
  unfold setCurrentTheme.
  destruct (find _ _) as [theme|]; [|intros [= <-]; repeat split].
  destruct (ThemePreset.colors theme) as [entries|].
  - destruct (apply_preset_colors entries (colors state)) as [l0|e] eqn:H0;
      cbn [bind]; [|discriminate].
    apply apply_preset_colors_foreground in H0.
    match goal with
    | |- bind ?chain _ = _ -> _ => destruct chain as [[l6 d6]|e] eqn:Hchain
    end; cbn [bind]; [|discriminate].
    intros [= <-]. cbn [colors isDarkMode predefinedThemes].
    repeat split.
    destruct (apply_preset_charts_frame _ _ _ _ _ Hchain foreground) as [-> _].
    + cbn [In]. intuition discriminate.
    + rewrite <- H0. reflexivity.
  - cbn [bind]. intros [= <-]. repeat split.
Qed.

(** X17.  After a preset with colours has been applied, the dark palette is,
    off the five chart roles, the dark derivation of the light palette that
    results; and the preset's name is the current theme. *)
Theorem setCurrentTheme_dark_is_derived
    (themeName : string) (state state' : ThemeState)
    (theme : ThemePreset.t) (entries : list (string * string)) :
  findTheme themeName (predefinedThemes state) = Some theme ->
  ThemePreset.colors theme = Some entries ->
  setCurrentTheme themeName state = Ok state' ->
  currentTheme state' = themeName /\
  forall k, ~ In k [chart1; chart2; chart3; chart4; chart5] ->
            darkColors state' k = deriveDarkModeColors (colors state') k.
Proof.
  unfold setCurrentTheme, findTheme. intros -> ->.
  destruct (apply_preset_colors entries (colors state)) as [l0|e];
    cbn [bind]; [|discriminate].
  match goal with
  | |- bind ?chain _ = _ -> _ => destruct chain as [[l6 d6]|e] eqn:Hchain
  end; cbn [bind]; [|discriminate].
  intros [= <-]. cbn [colors darkColors currentTheme]. split; [reflexivity|].
  pose proof (apply_preset_charts_frame _ _ _ _ _ Hchain) as Hoff.
  intros k Hk. destruct (Hoff k Hk) as [_ ->]. cbv beta.
  apply deriveDarkModeColors_ext; symmetry; apply Hoff;
    cbn [In]; intuition discriminate.
Qed.

End PresetFacts.

Lemma setCurrentTheme_keeps_foreground_witness :
  colors defaultPresetApplied foreground = "291 10% 4%" /\
  isDarkMode defaultPresetApplied = false /\
  predefinedThemes defaultPresetApplied = [defaultPreset].
Proof.
  apply (setCurrentTheme_keeps_foreground (CU := specColorUtils)
           "Default" defaultTheme defaultPresetApplied).
  vm_compute. reflexivity.
Defined.

Lemma setCurrentTheme_dark_is_derived_witness :
  currentTheme defaultPresetApplied = "Default" /\
  forall k, ~ In k [chart1; chart2; chart3; chart4; chart5] ->
            darkColors defaultPresetApplied k
            = deriveDarkModeColors (colors defaultPresetApplied) k.
Proof.
  apply (setCurrentTheme_dark_is_derived (CU := specColorUtils)
           "Default" defaultTheme defaultPresetApplied defaultPreset
           [ ("background", "#ffffff"); ("foreground", "#0a090f");
             ("primary", "#7a3be0"); ("secondary", "#dbd2f5");
             ("accent", "#c48bea");
             ("chart1", "#7a3be0"); ("chart2", "#9a50e5");
             ("chart3", "#b972e8"); ("chart4", "#5524da");
             ("chart5", "#300cbe") ]);
    vm_compute; reflexivity.
Defined.

(* ---------------------------------------------------------------- *)

Lemma findIndex_none (name : string) (themes : list ThemePreset.t) :
  findIndex name themes = None -> findTheme name themes = None.
Proof.
  unfold findTheme. induction themes as [|t rest IH]; cbn [findIndex find]; [reflexivity|].
  destruct (String.eqb (ThemePreset.name t) name); [discriminate|].
  destruct (findIndex name rest); [discriminate|]. intros _. apply IH. reflexivity.
Qed.

Lemma findTheme_app_none (name : string) (themes : list ThemePreset.t)
    (theme : ThemePreset.t) :
  findTheme name themes = None ->
  findTheme name (themes ++ [theme])
  = if String.eqb (ThemePreset.name theme) name then Some theme else None.
Proof.
  unfold findTheme. induction themes as [|t rest IH]; cbn [find List.app]; [reflexivity|].
  destruct (String.eqb (ThemePreset.name t) name); [discriminate | exact IH].
Qed.

Lemma findTheme_app_some (name : string) (themes : list ThemePreset.t)
    (theme found : ThemePreset.t) :
  findTheme name themes = Some found ->
  findTheme name (themes ++ [theme]) = Some found.
Proof.
  unfold findTheme. induction themes as [|t rest IH]; cbn [find List.app]; [discriminate|].
  destruct (String.eqb (ThemePreset.name t) name); [trivial | exact IH].
Qed.

(** Replacing at the index [findIndex] found: the lookup of the replaced
    name finds the new preset, every other lookup is as before. *)
Lemma findTheme_replaceAt (themes : list ThemePreset.t) (theme : ThemePreset.t)
    (i : nat) (name : string) :
  findIndex (ThemePreset.name theme) themes = Some i ->
  findTheme name (replaceAt i theme themes)
  = if String.eqb (ThemePreset.name theme) name then Some theme
    else findTheme name themes.
Proof.
  unfold findTheme. revert i.
  induction themes as [|t rest IH]; intros i; cbn [findIndex]; [discriminate|].
  destruct (String.eqb_spec (ThemePreset.name t) (ThemePreset.name theme)) as [Heq | Hne].
  - intros [= <-]. cbn [replaceAt find]. rewrite Heq.
    destruct (String.eqb (ThemePreset.name theme) name); reflexivity.
  - destruct (findIndex (ThemePreset.name theme) rest) as [j|] eqn:Hj;
      cbn [option_map]; [|discriminate].
    intros [= <-]. cbn [replaceAt find].
    destruct (String.eqb_spec (ThemePreset.name t) name) as [Htn | Htn].
    + destruct (String.eqb_spec (ThemePreset.name theme) name) as [Hthn | _];
        [congruence | reflexivity].
    + apply IH. reflexivity.
Qed.

Lemma map_name_replaceAt (themes : list ThemePreset.t) (theme : ThemePreset.t) (i : nat) :
  findIndex (ThemePreset.name theme) themes = Some i ->
  map ThemePreset.name (replaceAt i theme themes) = map ThemePreset.name themes.
Proof.
  revert i. induction themes as [|t rest IH]; intros i; cbn [findIndex]; [discriminate|].
  destruct (String.eqb_spec (ThemePreset.name t) (ThemePreset.name theme)) as [Heq | Hne].
  - intros [= <-]. cbn [replaceAt map]. rewrite Heq. reflexivity.
  - destruct (findIndex (ThemePreset.name theme) rest) as [j|] eqn:Hj;
      cbn [option_map]; [|discriminate].
    intros [= <-]. cbn [replaceAt map]. rewrite (IH j eq_refl). reflexivity.
Qed.

(** X18.  Lookup after insert: once [addCustomTheme(theme)] has run, the
    lookup by name that [setCurrentTheme] performs finds [theme] under its own
    name and finds under every other name what it found before. *)
Theorem addCustomTheme_lookup (theme : ThemePreset.t) (state : ThemeState) :
  let themes' := predefinedThemes (addCustomTheme theme state) in
  findTheme (ThemePreset.name theme) themes' = Some theme /\
  forall name, name <> ThemePreset.name theme ->
               findTheme name themes' = findTheme name (predefinedThemes state).
Proof.
  cbv zeta. unfold addCustomTheme. cbn [predefinedThemes].
  destruct (findIndex (ThemePreset.name theme) (predefinedThemes state)) as [i|] eqn:Hi.
  - split.
    + rewrite (findTheme_replaceAt _ _ _ _ Hi), String.eqb_refl. reflexivity.
    + intros name Hne. rewrite (findTheme_replaceAt _ _ _ _ Hi).
      destruct (String.eqb_spec (ThemePreset.name theme) name); [congruence | reflexivity].
  - apply findIndex_none in Hi. split.
    + rewrite (findTheme_app_none _ _ _ Hi), String.eqb_refl. reflexivity.
    + intros name Hne.
      destruct (findTheme name (predefinedThemes state)) as [found|] eqn:Hf.
      * apply findTheme_app_some. exact Hf.
      * rewrite (findTheme_app_none _ _ _ Hf).
        destruct (String.eqb_spec (ThemePreset.name theme) name); [congruence | reflexivity].
Qed.

(** X19.  [addCustomTheme] never duplicates a name it already knows: when a
    preset of that name exists the list of names is unchanged (the preset is
    replaced in place), otherwise the new name is appended at the end; the
    rest of the state is untouched. *)
Theorem addCustomTheme_names (theme : ThemePreset.t) (state : ThemeState) :
  let state' := addCustomTheme theme state in
  map ThemePreset.name (predefinedThemes state')
  = (match findTheme (ThemePreset.name theme) (predefinedThemes state) with
     | Some _ => map ThemePreset.name (predefinedThemes state)
     | None => map ThemePreset.name (predefinedThemes state) ++ [ThemePreset.name theme]
     end)%list /\
  colors state' = colors state /\
  darkColors state' = darkColors state /\
  fonts state' = fonts state /\
  borderRadius state' = borderRadius state /\
  isDarkMode state' = isDarkMode state /\
  currentTheme state' = currentTheme state.
Proof.
  cbv zeta. split; [|repeat split].
  unfold addCustomTheme. cbn [predefinedThemes].
  destruct (findIndex (ThemePreset.name theme) (predefinedThemes state)) as [i|] eqn:Hi.
  - rewrite (map_name_replaceAt _ _ _ Hi).
    pose proof (findTheme_replaceAt _ _ _ (ThemePreset.name theme) Hi) as Hf.
    rewrite String.eqb_refl in Hf.
    destruct (findTheme (ThemePreset.name theme) (predefinedThemes state)) eqn:Hold;
      [reflexivity|].
    exfalso. clear Hf. revert i Hi. unfold findTheme in Hold.
    induction (predefinedThemes state) as [|t rest IH]; intros i; cbn [findIndex];
      [discriminate|].
    cbn [find] in Hold.
    destruct (String.eqb (ThemePreset.name t) (ThemePreset.name theme));
      [discriminate|].
    destruct (findIndex (ThemePreset.name theme) rest) as [j|]; [|discriminate].
    intros _. apply (IH Hold j). reflexivity.
  - rewrite (findIndex_none _ _ Hi). rewrite map_app. reflexivity.
Qed.

Section PresetCompose.
Context {CU : ColorUtils}.

(** X20.  Adding a preset and selecting it: for a preset without colours,
    [setCurrentTheme] of its name after [addCustomTheme] succeeds, makes it
    the current theme, takes over its radius when it has one, and leaves both
    palettes as they were. *)
Theorem addCustomTheme_then_setCurrentTheme
    (theme : ThemePreset.t) (state : ThemeState) :
  ThemePreset.colors theme = None ->
  exists state',
    setCurrentTheme (ThemePreset.name theme) (addCustomTheme theme state) = Ok state' /\
    currentTheme state' = ThemePreset.name theme /\
    colors state' = colors state /\
    darkColors state' = darkColors state /\
    borderRadius state'
    = match ThemePreset.borderRadius theme with
      | Some r => r
      | None => borderRadius state
      end.
Proof.
  intros Hnone.
  assert (Hfind : findTheme (ThemePreset.name theme)
                    (predefinedThemes (addCustomTheme theme state)) = Some theme).
  { unfold addCustomTheme. cbn [predefinedThemes].
    destruct (findIndex (ThemePreset.name theme) (predefinedThemes state)) as [i|] eqn:Hi.
    - rewrite (findTheme_replaceAt _ _ _ _ Hi), String.eqb_refl. reflexivity.
    - apply findIndex_none in Hi.
      rewrite (findTheme_app_none _ _ _ Hi), String.eqb_refl. reflexivity. }
  unfold setCurrentTheme. unfold findTheme in Hfind. rewrite Hfind, Hnone.
  cbn [bind]. eexists. split; [reflexivity|]. repeat split.
Qed.

End PresetCompose.

Lemma addCustomTheme_then_setCurrentTheme_witness :
  exists state',
    setCurrentTheme "Plain" (addCustomTheme plainPreset defaultTheme) = Ok state' /\
    currentTheme state' = "Plain" /\
    colors state' = defaultLightColors /\
    darkColors state' = defaultDarkColors /\
    borderRadius state' = 1%Q.
Proof.
  apply (addCustomTheme_then_setCurrentTheme (CU := specColorUtils)
           plainPreset defaultTheme). reflexivity.
Defined.

(* ================================================================== *)
(** ** Further properties of the link encoder *)
(* ================================================================== *)

Lemma numeral_not_space (c : ascii) :
  JS.is_numeral_char c = true -> JS.is_space c = false.
Proof.
  destruct c as [[] [] [] [] [] [] [] []]; try discriminate; reflexivity.
Qed.

Lemma numeral_not_percent (c : ascii) :
  JS.is_numeral_char c = true -> Ascii.eqb c "%" = false.
Proof.
  destruct c as [[] [] [] [] [] [] [] []]; try discriminate; reflexivity.
Qed.

(** A numeral passes through the two replacements of [compactHSL]. *)
Lemma replace_space_runs_numeral (s rest : string) (in_run : bool) :
  JS.string_forall JS.is_numeral_char s = true ->
  s <> EmptyString ->
  replace_space_runs in_run (s ++ rest) = s ++ replace_space_runs false rest.
Proof.
  revert in_run. induction s as [|c r IH]; intros in_run Hs Hne; [contradiction|].
  cbn [JS.string_forall] in Hs. apply andb_true_iff in Hs as [Hc Hr].
  cbn [append replace_space_runs]. rewrite (numeral_not_space _ Hc).
  destruct r as [|c' r'].
  - reflexivity.
  - rewrite (IH false Hr); [reflexivity | discriminate].
Qed.

Lemma remove_all_numeral (s rest : string) :
  JS.string_forall JS.is_numeral_char s = true ->
  JS.remove_all "%" (s ++ rest) = s ++ JS.remove_all "%" rest.
Proof.
  induction s as [|c r IH]; intros Hs; [reflexivity|].
  cbn [JS.string_forall] in Hs. apply andb_true_iff in Hs as [Hc Hr].
  cbn [append JS.remove_all]. rewrite (numeral_not_percent _ Hc), (IH Hr).
  reflexivity.
Qed.

Lemma showZ_nonempty (z : Z) : JS.showZ z <> EmptyString.
Proof.
  unfold JS.showZ. destruct (z <? 0); [discriminate|].
  destruct (JSFacts.showN_head (Z.abs_N z)) as (c & r & -> & _). discriminate.
Qed.

Lemma showZ_no_comma (z : Z) :
  JS.string_forall (fun c => negb (Ascii.eqb c ",")) (JS.showZ z) = true.
Proof.
  apply JSFacts.string_forall_impl with (p := JS.is_numeral_char).
  - intros c Hc. apply (JSFacts.numeral_char_not c ","); [reflexivity | assumption].
  - apply JSFacts.showZ_numeral.
Qed.

(** X21.  [compactHSL] on a colour printed from integers is the three
    numerals joined by commas, and nothing of the colour is lost: splitting
    the compact form at the commas and parsing gives [h], [s], [l] back. *)
Theorem compactHSL_printed (h s l : Z) :
  compactHSL (hslString h s l)
  = JS.showZ h ++ "," ++ JS.showZ s ++ "," ++ JS.showZ l /\
  map JS.parseInt (JS.split "," (compactHSL (hslString h s l)))
  = [JS.Num h; JS.Num s; JS.Num l].
Proof.
  assert (Hc : compactHSL (hslString h s l)
               = JS.showZ h ++ "," ++ JS.showZ s ++ "," ++ JS.showZ l).
  { unfold compactHSL, hslString. cbn [JS.toString].
    rewrite replace_space_runs_numeral
      by (apply JSFacts.showZ_numeral || apply showZ_nonempty).
    cbn [append replace_space_runs JS.is_space].
    change (JS.is_space " ") with true. cbv iota.
    rewrite replace_space_runs_numeral
      by (apply JSFacts.showZ_numeral || apply showZ_nonempty).
    cbn [append replace_space_runs].
    change (JS.is_space "%") with false. change (JS.is_space " ") with true.
    cbv iota.
    rewrite replace_space_runs_numeral
      by (apply JSFacts.showZ_numeral || apply showZ_nonempty).
    cbn [append replace_space_runs].
    change (JS.is_space "%") with false. cbv iota.
    rewrite remove_all_numeral by apply JSFacts.showZ_numeral.
    cbn [JS.remove_all]. change (Ascii.eqb "," "%") with false. cbv iota.
    rewrite remove_all_numeral by apply JSFacts.showZ_numeral.
    cbn [JS.remove_all]. change (Ascii.eqb "%" "%") with true.
    change (Ascii.eqb "," "%") with false. cbv iota.
    rewrite remove_all_numeral by apply JSFacts.showZ_numeral.
    cbn [JS.remove_all]. change (Ascii.eqb "%" "%") with true. cbv iota.
    rewrite append_nil_r. reflexivity. }
  split; [exact Hc|]. rewrite Hc.
  change (JS.showZ h ++ "," ++ JS.showZ s ++ "," ++ JS.showZ l)
    with (JS.showZ h ++ String "," (JS.showZ s ++ String "," (JS.showZ l))).
  rewrite JSFacts.split_app by apply showZ_no_comma.
  rewrite JSFacts.split_app by apply showZ_no_comma.
  rewrite JSFacts.split_none by apply showZ_no_comma.
  cbn [map]. rewrite !JSFacts.parseInt_showZ. reflexivity.
Qed.

Lemma remove_all_compact (s : string) :
  JS.string_forall (fun c => negb (JS.is_space c)) s = true ->
  JS.string_forall is_compact_char (JS.remove_all "%" s) = true.
Proof.
  induction s as [|c r IH]; intros Hs; [reflexivity|].
  cbn [JS.string_forall] in Hs. apply andb_true_iff in Hs as [Hc Hr].
  cbn [JS.remove_all]. destruct (Ascii.eqb c "%") eqn:Hp; [exact (IH Hr)|].
  cbn [JS.string_forall]. unfold is_compact_char at 1.
  rewrite Hp, Hc, (IH Hr). reflexivity.
Qed.

Lemma replace_space_runs_no_space (s : string) (in_run : bool) :
  JS.string_forall (fun c => negb (JS.is_space c)) (replace_space_runs in_run s) = true.
Proof.
  revert in_run. induction s as [|c r IH]; intros in_run; [reflexivity|].
  cbn [replace_space_runs]. destruct (JS.is_space c) eqn:Hc.
  - destruct in_run; [apply IH|].
    cbn [JS.string_forall]. rewrite IH. reflexivity.
  - cbn [JS.string_forall]. rewrite Hc, IH. reflexivity.
Qed.

(** X22.  Whatever string it is given, [compactHSL] returns a string with no
    percent sign and no white space in it. *)
Theorem compactHSL_compact (hsl : string) :
  JS.string_forall is_compact_char (compactHSL hsl) = true.
Proof.
  unfold compactHSL. apply remove_all_compact, replace_space_runs_no_space.
Qed.

(** X23.  The properties of the encoded object, in order: [l] always; [d]
    exactly in dark mode; [f] exactly when a font differs from Geist; [r]
    exactly when the radius differs from 8; [dm] exactly in dark mode. *)
Theorem encodedObject_keys (theme : ThemeState) :
  map fst (encodedObject theme)
  = (["l"]
     ++ (if isDarkMode theme then ["d"] else [])
     ++ (if negb (String.eqb (heading (fonts theme)) "Geist")
            || negb (String.eqb (body (fonts theme)) "Geist")
         then ["f"] else [])
     ++ (if negb (Qeq_bool (borderRadius theme) 8) then ["r"] else [])
     ++ (if isDarkMode theme then ["dm"] else []))%list.
Proof.
  unfold encodedObject, minimalTheme, spread_if.
  destruct (isDarkMode theme),
           (String.eqb (heading (fonts theme)) "Geist"),
           (String.eqb (body (fonts theme)) "Geist"),
           (Qeq_bool (borderRadius theme) 8); reflexivity.
Qed.

(** X24.  The font pair as the link carries it: nothing when both fonts are
    Geist; the one-element array of the heading when only the heading
    differs; [null] and the body when only the body differs; both names when
    both differ. *)
Theorem encodedObject_fonts (theme : ThemeState) :
  let h := heading (fonts theme) in
  let b := body (fonts theme) in
  get_field "f" (encodedObject theme)
  = if String.eqb h "Geist"
    then (if String.eqb b "Geist" then None else Some (JArr [JNull; JStr b]))
    else (if String.eqb b "Geist" then Some (JArr [JStr h])
          else Some (JArr [JStr h; JStr b])).
Proof.
  cbv zeta. unfold encodedObject, minimalTheme, spread_if.
  destruct (isDarkMode theme),
           (String.eqb (heading (fonts theme)) "Geist"),
           (String.eqb (body (fonts theme)) "Geist"),
           (Qeq_bool (borderRadius theme) 8); reflexivity.
Qed.

(** X25.  What a link carries: two states with the same dark-mode flag,
    fonts and radius that agree on background, foreground, primary,
    secondary, accent and destructive of the light palette (and, in dark
    mode, of the dark palette) encode to the same token.  In particular a
    link made in light mode carries nothing of the dark palette. *)
Theorem encodeThemeState_carries (t1 t2 : ThemeState) :
  isDarkMode t1 = isDarkMode t2 ->
  fonts t1 = fonts t2 ->
  borderRadius t1 = borderRadius t2 ->
  (forall k, In k [background; foreground; primary; secondary; accent; destructive] ->
             colors t1 k = colors t2 k) ->
  (isDarkMode t1 = true ->
   forall k, In k [background; foreground; primary; secondary; accent; destructive] ->
             darkColors t1 k = darkColors t2 k) ->
  encodeThemeState t1 = encodeThemeState t2.
Proof.
  intros Hflag Hfonts Hradius Hlight Hdark.
  unfold encodeThemeState, encodedObject, minimalTheme.
  rewrite <- Hflag, <- Hfonts, <- Hradius.
  assert (El : essentialColors (colors t1) = essentialColors (colors t2)).
  { unfold essentialColors.
    rewrite !(Hlight _) by (cbn [In]; tauto). reflexivity. }
  rewrite <- El.
  destruct (isDarkMode t1) eqn:Hd1; [|reflexivity].
  assert (Ed : essentialColors (darkColors t1) = essentialColors (darkColors t2)).
  { unfold essentialColors.
    rewrite !(Hdark eq_refl _) by (cbn [In]; tauto). reflexivity. }
  rewrite <- Ed. reflexivity.
Qed.

Lemma encodeThemeState_carries_witness :
  encodeThemeState defaultTheme
  = encodeThemeState
      {| colors := defaultLightColors.[ring := "0 0% 0%"];
         darkColors := defaultLightColors;
         fonts := {| heading := "Geist"; body := "Geist" |};
         borderRadius := 0.5; isDarkMode := false;
         selectedHarmony := "triadic";
         exportMenuOpen := true; shareMenuOpen := false;
         predefinedThemes := []; currentTheme := "Mine" |}.
Proof.
  apply encodeThemeState_carries; try reflexivity.
  - intros k Hk. cbn [In] in Hk.
    repeat (destruct Hk as [<- | Hk]; [reflexivity|]). contradiction.
  - discriminate.
Defined.

(* ================================================================== *)
(** ** Harmony generation *)
(* ================================================================== *)

(** [parseInt] without a radix reads the percentage the store has just
    printed. *)
Lemma parseIntAuto_percent (z : Z) :
  parseIntAuto (JS.showZ z ++ "%") = JS.Num z.
Proof.
  assert (Hp : JS.parseInt (JS.showZ z ++ "%") = JS.Num z)
    by (apply JSFacts.parseInt_showZ_app; reflexivity).
  unfold parseIntAuto. unfold JS.showZ in *.
  destruct (Z.ltb_spec z 0) as [Hneg | Hpos].
  - cbn [append].
    change (JS.read_sign (JS.trimStart (String "-" (JS.showN (Z.abs_N z) ++ "%"))))
      with (true, JS.showN (Z.abs_N z) ++ "%").
    cbv iota beta.
    destruct (JSFacts.showN_head (Z.abs_N z)) as (c & r & Heq & Hc).
    rewrite Heq in *. cbn [append].
    destruct r as [|x r']; cbn [append].
    + destruct c as [[] [] [] [] [] [] [] []]; try discriminate Hc; exact Hp.
    + pose proof (JSFacts.showN_digits (Z.abs_N z)) as Hd. rewrite Heq in Hd.
      cbn [JS.string_forall] in Hd.
      apply andb_true_iff in Hd as [_ Hd]. apply andb_true_iff in Hd as [Hx _].
      assert (Hxx : Ascii.eqb x "x" || Ascii.eqb x "X" = false)
        by (destruct x as [[] [] [] [] [] [] [] []]; try discriminate Hx; reflexivity).
      destruct c as [[] [] [] [] [] [] [] []]; try discriminate Hc;
        try exact Hp; rewrite Hxx; exact Hp.
  - destruct (JSFacts.showN_head (Z.abs_N z)) as (c & r & Heq & Hc).
    rewrite Heq in *. cbn [append JS.trimStart].
    rewrite (JSFacts.digit_not_space _ Hc), (JSFacts.digit_not_sign _ _ Hc).
    destruct r as [|x r']; cbn [append].
    + destruct c as [[] [] [] [] [] [] [] []]; try discriminate Hc; exact Hp.
    + pose proof (JSFacts.showN_digits (Z.abs_N z)) as Hd. rewrite Heq in Hd.
      cbn [JS.string_forall] in Hd.
      apply andb_true_iff in Hd as [_ Hd]. apply andb_true_iff in Hd as [Hx _].
      assert (Hxx : Ascii.eqb x "x" || Ascii.eqb x "X" = false)
        by (destruct x as [[] [] [] [] [] [] [] []]; try discriminate Hx; reflexivity).
      destruct c as [[] [] [] [] [] [] [] []]; try discriminate Hc;
        try exact Hp; rewrite Hxx; exact Hp.
Qed.

Lemma parseIntAt_hslString (h s l : Z) :
  parseIntAt (JS.split " " (hslString h s l)) 1 = JS.Num s /\
  parseIntAt (JS.split " " (hslString h s l)) 2 = JS.Num l.
Proof.
  rewrite split_hslString. unfold parseIntAt. cbn [nth_error].
  split; apply parseIntAuto_percent.
Qed.

Section HarmonyFacts.
Context {CU : ColorUtils}.

Lemma generateHarmonyColors_printed (hex : string) (h s l : Z) (state : ThemeState) :
  hexToHSL hex = Ok (hslString h s l) ->
  generateHarmonyColors hex state = Ok (harmonyState h s l state).
Proof.
  intros Hhex. unfold generateHarmonyColors. rewrite Hhex. cbn [bind].
  rewrite split_hslString.
  destruct (parseInt_pieces h) as [-> _].
  destruct (parseInt_pieces s) as [_ ->].
  destruct (parseInt_pieces l) as [_ ->].
  reflexivity.
Qed.

(** The seed roles of a generated state, read off the assignments. *)
Lemma harmonyState_readout (h s l : Z) (state : ThemeState) :
  let S := Z.min (s + 20) 85 in
  let L := Z.max (Z.min l 60) 45 in
  let S2 := Z.max (Z.min (S - 60) 25) 5 in
  let L2 := Z.min (L + 40) 96 in
  let S3 := Z.max (Z.min (S - 30) 55) 30 in
  let L3 := Z.min (L + 30) 88 in
  let bS := Z.max (Z.min (S - 60) 40) 30 in
  let bL := Z.max (Z.min (L - 35) 10) 8 in
  let st := harmonyState h s l state in
  colors st primary = hslString h S L /\
  colors st secondary = hslString h S2 L2 /\
  colors st accent = hslString h S3 L3 /\
  colors st background = "0 0% 100%" /\
  colors st foreground = hslString h 10 4 /\
  colors st border = hslString h S2 (Z.max (L2 - 10) 80) /\
  darkColors st primary = hslString h (Z.max (S - 10) 60) (Z.min (L + 5) 60) /\
  darkColors st secondary
  = hslString h (Z.max S2 10) (Z.max (Z.min (L2 - 75) 25) 15) /\
  darkColors st accent = hslString h S3 (Z.max (L3 - 50) 25) /\
  darkColors st background = hslString h bS bL /\
  darkColors st card = hslString h bS (Z.min (bL + 4) 20) /\
  darkColors st foreground = hslString h 10 95 /\
  darkColors st sidebar
  = hslString h (parseIntAt (JS.split " " (hslString h bS bL)) 1)
      (JS.Math_min (parseIntAt (JS.split " " (hslString h bS bL)) 2 + 12) 25).
Proof. cbv zeta. repeat split; reflexivity. Qed.

(** X26.  The light seeds of a generated harmony, for a drawn colour
    [(h, s%, l%)] inside the colour space: the primary keeps the hue with
    saturation [min (s + 20) 85] in [20, 85] and lightness clamped into
    [45, 60]; secondary and accent keep the hue with saturation in [5, 25]
    and [30, 55] and lightness in [85, 96] and [75, 88]; the background is
    white and the foreground is the hue at 10% 4%. *)
Theorem generateHarmonyColors_light_seeds
    (hex : string) (h s l : Z) (state : ThemeState) :
  hexToHSL hex = Ok (hslString h s l) ->
  0 <= s <= 100 -> 0 <= l <= 100 ->
  exists (state' : ThemeState) (S L S2 L2 S3 L3 : Z),
    generateHarmonyColors hex state = Ok state' /\
    S = Z.min (s + 20) 85 /\ L = Z.max (Z.min l 60) 45 /\
    colors state' primary = hslString h S L /\
    20 <= S <= 85 /\ 45 <= L <= 60 /\
    colors state' secondary = hslString h S2 L2 /\
    5 <= S2 <= 25 /\ 85 <= L2 <= 96 /\
    colors state' accent = hslString h S3 L3 /\
    30 <= S3 <= 55 /\ 75 <= L3 <= 88 /\
    colors state' background = "0 0% 100%" /\
    colors state' foreground = hslString h 10 4.
Proof.
  intros Hhex Hs Hl.
  pose proof (harmonyState_readout h s l state) as R. cbv zeta in R.
  destruct R as (Rp & Rs & Ra & Rb & Rf & _).
  eexists. do 6 eexists.
  split; [apply generateHarmonyColors_printed; exact Hhex|].
  split; [reflexivity|]. split; [reflexivity|].
  split; [exact Rp|]. split; [clear - Hs Hl; lia|]. split; [clear - Hs Hl; lia|].
  split; [exact Rs|]. split; [clear - Hs Hl; lia|]. split; [clear - Hs Hl; lia|].
  split; [exact Ra|]. split; [clear - Hs Hl; lia|]. split; [clear - Hs Hl; lia|].
  split; [exact Rb | exact Rf].
Qed.

(** X27.  The dark seeds of a generated harmony, for a drawn colour inside
    the colour space.  The clamps on the dark background never bind: it is
    always the hue at 30% 10%, its card the hue at 30% 14% and the sidebar the
    hue at 30% 22%.  The dark primary has saturation in [60, 75] and
    lightness in [50, 60], the dark secondary lightness in [15, 21], the dark
    accent lightness in [25, 38]. *)
Theorem generateHarmonyColors_dark_seeds
    (hex : string) (h s l : Z) (state : ThemeState) :
  hexToHSL hex = Ok (hslString h s l) ->
  0 <= s <= 100 -> 0 <= l <= 100 ->
  exists (state' : ThemeState) (pS pL sS sL aS aL : Z),
    generateHarmonyColors hex state = Ok state' /\
    darkColors state' background = hslString h 30 10 /\
    darkColors state' card = hslString h 30 14 /\
    darkColors state' sidebar = hslString h 30 22 /\
    darkColors state' primary = hslString h pS pL /\
    60 <= pS <= 75 /\ 50 <= pL <= 60 /\
    darkColors state' secondary = hslString h sS sL /\
    10 <= sS <= 25 /\ 15 <= sL <= 21 /\
    darkColors state' accent = hslString h aS aL /\
    30 <= aS <= 55 /\ 25 <= aL <= 38.
Proof.
  intros Hhex Hs Hl.
  assert (HbS : Z.max (Z.min (Z.min (s + 20) 85 - 60) 40) 30 = 30) by lia.
  assert (HbL : Z.max (Z.min (Z.max (Z.min l 60) 45 - 35) 10) 8 = 10) by lia.
  pose proof (harmonyState_readout h s l state) as R. cbv zeta in R.
  destruct R as (_ & _ & _ & _ & _ & _ & Rp & Rs & Ra & Rb & Rc & _ & Rsb).
  rewrite HbS, HbL in Rb, Rc, Rsb.
  destruct (parseIntAt_hslString h 30 10) as [E1 E2].
  rewrite E1, E2 in Rsb.
  eexists. do 6 eexists.
  split; [apply generateHarmonyColors_printed; exact Hhex|].
  split; [exact Rb|]. split; [exact Rc|]. split; [exact Rsb|].
  split; [exact Rp|]. split; [clear - Hs Hl; lia|]. split; [clear - Hs Hl; lia|].
  split; [exact Rs|]. split; [clear - Hs Hl; lia|]. split; [clear - Hs Hl; lia|].
  split; [exact Ra|]. split; clear - Hs Hl; lia.
Qed.

(** X28.  A generated harmony replaces both palettes wholesale: apart from
    [destructive], which each palette keeps, no role of the result depends on
    the palettes before, so two states draw the same palettes from the same
    colour; fonts, radius and the dark-mode flag are those of the state
    before. *)
Theorem generateHarmonyColors_wholesale
    (hex : string) (h s l : Z) (state1 state2 : ThemeState) :
  hexToHSL hex = Ok (hslString h s l) ->
  exists state1' state2',
    generateHarmonyColors hex state1 = Ok state1' /\
    generateHarmonyColors hex state2 = Ok state2' /\
    (forall k, k <> destructive ->
               colors state1' k = colors state2' k /\
               darkColors state1' k = darkColors state2' k) /\
    colors state1' destructive = colors state1 destructive /\
    darkColors state1' destructive = darkColors state1 destructive /\
    fonts state1' = fonts state1 /\
    borderRadius state1' = borderRadius state1 /\
    isDarkMode state1' = isDarkMode state1.
Proof.
  intros Hhex. eexists. eexists.
  split; [apply generateHarmonyColors_printed; exact Hhex|].
  split; [apply generateHarmonyColors_printed; exact Hhex|].
  split; [|repeat split].
  intros k Hk. destruct k; try contradiction; split; reflexivity.
Qed.

(** X29.  A generated harmony is coherent in both palettes: ring,
    sidebarPrimary, sidebarRing and chart1 equal the primary, muted equals
    the secondary, and charts 2 to 5 are the generator's series of that
    palette's own primary, in its own mode. *)
Theorem generateHarmonyColors_coherent
    (hex : string) (h s l : Z) (state : ThemeState) :
  hexToHSL hex = Ok (hslString h s l) ->
  exists state',
    generateHarmonyColors hex state = Ok state' /\
    (forall k, In k [ring; sidebarPrimary; sidebarRing; chart1] ->
               colors state' k = colors state' primary /\
               darkColors state' k = darkColors state' primary) /\
    colors state' muted = colors state' secondary /\
    darkColors state' muted = darkColors state' secondary /\
    (let g := generateChartColors (colors state' primary)
                (colors state' secondary) (colors state' accent) false in
     colors state' chart2 = Charts.chart2 g /\ colors state' chart3 = Charts.chart3 g /\
     colors state' chart4 = Charts.chart4 g /\ colors state' chart5 = Charts.chart5 g) /\
    (let g := generateChartColors (darkColors state' primary)
                (darkColors state' secondary) (darkColors state' accent) true in
     darkColors state' chart2 = Charts.chart2 g /\
     darkColors state' chart3 = Charts.chart3 g /\
     darkColors state' chart4 = Charts.chart4 g /\
     darkColors state' chart5 = Charts.chart5 g).
Proof.
  intros Hhex. eexists.
  split; [apply generateHarmonyColors_printed; exact Hhex|].
  split.
  { intros k Hk. cbn [In] in Hk.
    repeat (destruct Hk as [<- | Hk]; [split; reflexivity|]). contradiction. }
  cbv zeta. repeat split; reflexivity.
Qed.

End HarmonyFacts.

Lemma generateHarmonyColors_light_seeds_witness :
  exists (state' : ThemeState) (S L S2 L2 S3 L3 : Z),
    generateHarmonyColors "#3366cc" defaultTheme = Ok state' /\
    S = Z.min (60 + 20) 85 /\ L = Z.max (Z.min 50 60) 45 /\
    colors state' primary = hslString 220 S L /\
    20 <= S <= 85 /\ 45 <= L <= 60 /\
    colors state' secondary = hslString 220 S2 L2 /\
    5 <= S2 <= 25 /\ 85 <= L2 <= 96 /\
    colors state' accent = hslString 220 S3 L3 /\
    30 <= S3 <= 55 /\ 75 <= L3 <= 88 /\
    colors state' background = "0 0% 100%" /\
    colors state' foreground = hslString 220 10 4.
Proof.
  apply (generateHarmonyColors_light_seeds (CU := specColorUtils)
           "#3366cc" 220 60 50 defaultTheme); [reflexivity | lia | lia].
Defined.

Lemma generateHarmonyColors_dark_seeds_witness :
  exists (state' : ThemeState) (pS pL sS sL aS aL : Z),
    generateHarmonyColors "#3366cc" defaultTheme = Ok state' /\
    darkColors state' background = hslString 220 30 10 /\
    darkColors state' card = hslString 220 30 14 /\
    darkColors state' sidebar = hslString 220 30 22 /\
    darkColors state' primary = hslString 220 pS pL /\
    60 <= pS <= 75 /\ 50 <= pL <= 60 /\
    darkColors state' secondary = hslString 220 sS sL /\
    10 <= sS <= 25 /\ 15 <= sL <= 21 /\
    darkColors state' accent = hslString 220 aS aL /\
    30 <= aS <= 55 /\ 25 <= aL <= 38.
Proof.
  apply (generateHarmonyColors_dark_seeds (CU := specColorUtils)
           "#3366cc" 220 60 50 defaultTheme); [reflexivity | lia | lia].
Defined.

Lemma generateHarmonyColors_wholesale_witness :
  exists state1' state2',
    generateHarmonyColors "#3366cc" defaultTheme = Ok state1' /\
    generateHarmonyColors "#3366cc" darkDefaultTheme = Ok state2' /\
    (forall k, k <> destructive ->
               colors state1' k = colors state2' k /\
               darkColors state1' k = darkColors state2' k) /\
    colors state1' destructive = "357.18 100% 45%" /\
    darkColors state1' destructive = "357.18 100% 45%" /\
    fonts state1' = {| heading := "Geist"; body := "Geist" |} /\
    borderRadius state1' = 0.5%Q /\
    isDarkMode state1' = false.
Proof.
  apply (generateHarmonyColors_wholesale (CU := specColorUtils)
           "#3366cc" 220 60 50 defaultTheme darkDefaultTheme). reflexivity.
Defined.

Lemma generateHarmonyColors_coherent_witness :
  exists state',
    generateHarmonyColors "#3366cc" defaultTheme = Ok state' /\
    (forall k, In k [ring; sidebarPrimary; sidebarRing; chart1] ->
               colors state' k = colors state' primary /\
               darkColors state' k = darkColors state' primary) /\
    colors state' muted = colors state' secondary /\
    darkColors state' muted = darkColors state' secondary /\
    (let g := generateChartColors (colors state' primary)
                (colors state' secondary) (colors state' accent) false in
     colors state' chart2 = Charts.chart2 g /\ colors state' chart3 = Charts.chart3 g /\
     colors state' chart4 = Charts.chart4 g /\ colors state' chart5 = Charts.chart5 g) /\
    (let g := generateChartColors (darkColors state' primary)
                (darkColors state' secondary) (darkColors state' accent) true in
     darkColors state' chart2 = Charts.chart2 g /\
     darkColors state' chart3 = Charts.chart3 g /\
     darkColors state' chart4 = Charts.chart4 g /\
     darkColors state' chart5 = Charts.chart5 g).
Proof.
  apply (generateHarmonyColors_coherent (CU := specColorUtils)
           "#3366cc" 220 60 50 defaultTheme). reflexivity.
Defined.

(* ================================================================== *)
(** ** The export menu *)
(* ================================================================== *)

(** X30.  [getRegistryCommand]: the pnpm command is what every package
    manager other than npm and bun gets, the unknown ones included, and only
    those; and whatever the manager, the command is one of the three
    launchers followed by the shadcn invocation of the URL it was given. *)
Theorem getRegistryCommand_fallback (packageManager url : string) :
  (getRegistryCommand packageManager url = "pnpm dlx shadcn@canary add " ++ url
   <-> packageManager <> "npm" /\ packageManager <> "bun") /\
  exists launcher,
    In launcher ["pnpm dlx"; "npx"; "bunx --bun"] /\
    getRegistryCommand packageManager url
    = launcher ++ " shadcn@canary add " ++ url.
Proof.
  unfold getRegistryCommand. split; [split|].
  - destruct (String.eqb_spec packageManager "pnpm") as [-> | _];
      [intros _; split; discriminate|].
    destruct (String.eqb_spec packageManager "npm") as [-> | Hnpm];
      [cbn [append]; discriminate|].
    destruct (String.eqb_spec packageManager "bun") as [-> | Hbun];
      [cbn [append]; discriminate|].
    intros _. split; assumption.
  - intros [Hnpm Hbun].
    destruct (String.eqb_spec packageManager "pnpm"); [reflexivity|].
    destruct (String.eqb_spec packageManager "npm"); [contradiction|].
    destruct (String.eqb_spec packageManager "bun"); [contradiction | reflexivity].
  - destruct (String.eqb packageManager "pnpm");
      [exists "pnpm dlx"; cbn [In]; split; [tauto | reflexivity]|].
    destruct (String.eqb packageManager "npm");
      [exists "npx"; cbn [In]; split; [tauto | reflexivity]|].
    destruct (String.eqb packageManager "bun");
      [exists "bunx --bun" | exists "pnpm dlx"];
      cbn [In]; (split; [tauto | reflexivity]).
Qed.
